(** * ABCU Advising Assistance Program: course store and planner

    A shallow embedding of [ProjectTwo_Code.cpp]: the string helpers, the
    binary search tree keyed by course number ([CourseBST]) and the planner
    that loads a file into it and answers the two queries
    ([CoursePlanner]), followed by the properties the design document states
    about them.

    Conventions of the embedding:
    - [std::string] is [string]; a [char] is an [ascii], compared through its
      code as an unsigned byte, which is what [std::char_traits<char>] does;
    - [size_t] is a [Z] kept in the range of 64 bits by [size_t_inc];
    - the character classes are those of the default "C" locale (the
      program never calls [setlocale]);
    - an output stream is the list of the values inserted in it with [<<];
    - a file is what [std::ifstream] gives: [None] when it cannot be opened,
      otherwise the list of lines [std::getline] returns. *)

From Stdlib Require Import ZArith Ascii String Sorted.
From stdpp Require Import gmap strings list.

Local Open Scope string_scope.
Local Open Scope list_scope.
Local Open Scope Z_scope.

(** ** Small string helpers *)

Module Str.

(** [std::isspace] in the "C" locale: space, \t, \n, \v, \f, \r. *)
Definition isspace (ch : ascii) : bool :=
  let n := N_of_ascii ch in
  ((9 <=? n) && (n <=? 13) || (n =? 32))%N.

(** [std::toupper] in the "C" locale. *)
Definition toupper (ch : ascii) : ascii :=
  let n := N_of_ascii ch in
  if ((97 <=? n) && (n <=? 122))%N then ascii_of_N (n - 32) else ch.

(** [std::tolower], used only to state case-insensitivity. *)
Definition tolower (ch : ascii) : ascii :=
  let n := N_of_ascii ch in
  if ((65 <=? n) && (n <=? 90))%N then ascii_of_N (n + 32) else ch.

Fixpoint map (f : ascii -> ascii) (s : string) : string :=
  match s with
  | EmptyString => EmptyString
  | String ch s' => String (f ch) (map f s')
  end.

(** The first loop of [trimCopy]: advance [b] over leading white space. *)
Fixpoint skip_front (s : string) : string :=
  match s with
  | EmptyString => EmptyString
  | String ch s' => if isspace ch then skip_front s' else s
  end.

(** The second loop of [trimCopy]: move [e] back over trailing white
    space; [s] is the text from [b] on. *)
Fixpoint skip_back (s : string) : string :=
  match s with
  | EmptyString => EmptyString
  | String ch s' =>
      match skip_back s' with
      | EmptyString => if isspace ch then EmptyString else String ch EmptyString
      | rest => String ch rest
      end
  end.

Definition empty (s : string) : bool :=
  match s with EmptyString => true | _ => false end.

End Str.

Definition trimCopy (s : string) : string := Str.skip_back (Str.skip_front s).

(** [toUpperInPlace], as the function from the old contents to the new. *)
Definition toUpperInPlace (s : string) : string := Str.map Str.toupper s.

Definition comma : ascii := ascii_of_nat 44.

(** [std::getline(iss, cur, ',')] on the unread text of the stream: [None]
    when nothing is left to extract (the call fails and the loop ends),
    otherwise the characters up to the next comma or the end of the text,
    and the text left after the comma. *)
Fixpoint getline_rest (s : string) : string * string :=
  match s with
  | EmptyString => (EmptyString, EmptyString)
  | String ch s' =>
      if Ascii.eqb ch comma then (EmptyString, s')
      else let '(cur, rest) := getline_rest s' in (String ch cur, rest)
  end.

Definition getline_comma (s : string) : option (string * string) :=
  match s with
  | EmptyString => None
  | _ => Some (getline_rest s)
  end.

(** The [while (std::getline(iss, cur, ','))] loop of [splitCSV]; every
    successful call consumes at least one character, so the length of the
    line bounds the number of iterations. *)
Fixpoint splitCSV_loop (fuel : nat) (iss : string) : list string :=
  match fuel with
  | O => []
  | S fuel' =>
      match getline_comma iss with
      | None => []
      | Some (cur, rest) => trimCopy cur :: splitCSV_loop fuel' rest
      end
  end.

Definition splitCSV (line : string) : list string :=
  splitCSV_loop (String.length line) line.

(** ** Core domain model *)

Record Course := mkCourse {
  number : string;
  title : string;
  prereqs : list string
}.

(** ** Binary search tree keyed by course number *)

(** A [Node*]: null, or a node owning its course and its two children. *)
Inductive NodePtr :=
| nullptr
| Node (course : Course) (left right : NodePtr).

(** [++n] on a [size_t]. *)
Definition size_t_inc (n : Z) : Z := (n + 1) mod 2 ^ 64.

Record CourseBST := mkBST {
  root_ : NodePtr;
  count_ : Z
}.

Module BST.

Definition empty : CourseBST := {| root_ := nullptr; count_ := 0 |}.

Definition clearAll (t : CourseBST) : CourseBST :=
  {| root_ := nullptr; count_ := 0 |}.

Definition size (t : CourseBST) : Z := count_ t.

(** [insertOrAssignImpl(n, c)]: the new subtree and the new [count_]. *)
Fixpoint insertOrAssignImpl (n : NodePtr) (c : Course) (count : Z)
  : NodePtr * Z :=
  match n with
  | nullptr => (Node c nullptr nullptr, size_t_inc count)
  | Node nc l r =>
      if String.ltb (number c) (number nc) then
        let '(l', count') := insertOrAssignImpl l c count in
        (Node nc l' r, count')
      else if String.ltb (number nc) (number c) then
        let '(r', count') := insertOrAssignImpl r c count in
        (Node nc l r', count')
      else
        (Node {| number := number nc; title := title c;
                 prereqs := prereqs c |} l r, count)
  end.

Definition insertOrAssign (t : CourseBST) (c : Course) : CourseBST :=
  let '(r, k) := insertOrAssignImpl (root_ t) c (count_ t) in
  {| root_ := r; count_ := k |}.

(** The [while (cur)] loop of [find], by recursion on the node reached. *)
Fixpoint find_from (cur : NodePtr) (num : string) : option Course :=
  match cur with
  | nullptr => None
  | Node nc l r =>
      if String.eqb num (number nc) then Some nc
      else if String.ltb num (number nc) then find_from l num
      else find_from r num
  end.

Definition find (t : CourseBST) (num : string) : option Course :=
  find_from (root_ t) num.

(** [inOrderImpl(n, fn)]: the visitor [fn] acts on a state [S] (what the
    lambda captures by reference). *)
Fixpoint inOrderImpl {S : Type} (n : NodePtr) (fn : Course -> S -> S)
    (s : S) : S :=
  match n with
  | nullptr => s
  | Node nc l r => inOrderImpl r fn (fn nc (inOrderImpl l fn s))
  end.

Definition inOrder {S : Type} (t : CourseBST) (fn : Course -> S -> S)
    (s : S) : S :=
  inOrderImpl (root_ t) fn s.

(** The courses a traversal visits, in the order of the visits. *)
Definition visited (t : CourseBST) : list Course :=
  inOrder t (fun c acc => (acc ++ [c])%list) [].

End BST.

(** ** Output streams *)

(** One insertion [stream << v]: a string or a [size_t]. *)
Inductive Out :=
| OutStr (s : string)
| OutNum (n : Z).

Definition LF : string := String (ascii_of_nat 10) EmptyString.
Definition DQ : string := String (ascii_of_nat 34) EmptyString.

(** ** Planner: loading, storage and printing *)

Record CoursePlanner := mkPlanner {
  tree_ : CourseBST;
  index_ : gmap string string;
  loaded_ : bool;
  lastFilename_ : string
}.

(** The locals of [loadFromFile] and the two members its loop updates. *)
Record LoadState := mkLoadState {
  ls_tree : CourseBST;
  ls_index : gmap string string;
  lineNum : Z;
  loaded : Z;
  skipped : Z;
  ls_cerr : list Out
}.

(** What a call of [loadFromFile] leaves behind. *)
Record LoadResult := mkLoadResult {
  ret : bool;
  outError : string;
  planner : CoursePlanner;
  load_cout : list Out;
  load_cerr : list Out
}.

Module Planner.

(** A default-constructed [CoursePlanner]. *)
Definition init : CoursePlanner :=
  {| tree_ := BST.empty; index_ := ∅; loaded_ := false;
     lastFilename_ := EmptyString |}.

Definition err_open (filename : string) : string :=
  "Error: Could not open file " +:+ DQ +:+ filename +:+ DQ +:+ ".".

Definition err_no_records : string :=
  "Error: No valid course records were loaded from the file.".

Definition warn_line (n : Z) : list Out :=
  [OutStr "Warning (line "; OutNum n;
   OutStr ("): expected at least course number and title. Skipping line."
           +:+ LF)].

Definition msg_load_first : list Out :=
  [OutStr ("Please load data first (Option 1)." +:+ LF)].

Definition msg_empty_number : list Out :=
  [OutStr ("Error: course number cannot be empty." +:+ LF)].

Definition msg_not_found (num : string) : list Out :=
  [OutStr ("Course " +:+ DQ); OutStr num;
   OutStr (DQ +:+ " was not found. ");
   OutStr ("Be sure you typed the correct course number (e.g., CSCI200)."
           +:+ LF)].

Definition msg_prereq_none : list Out :=
  [OutStr ("Prerequisites: None" +:+ LF +:+ LF)].

(** The [for (size_t i = 2; ...)] loop over the remaining parts. *)
Fixpoint prereqLoop (rest : list string) (acc : list string) : list string :=
  match rest with
  | [] => acc
  | part :: rest' =>
      let p := toUpperInPlace part in
      prereqLoop rest' (if Str.empty p then acc else acc ++ [p])
  end.

(** The [Course c] built from the parts of a line with at least two. *)
Definition makeCourse (parts : list string) : Course :=
  {| number := toUpperInPlace (nth 0 parts EmptyString);
     title := nth 1 parts EmptyString;
     prereqs := prereqLoop (drop 2 parts) [] |}.

(** One iteration of [while (std::getline(in, line))]. *)
Definition loadLine (st : LoadState) (line : string) : LoadState :=
  let n := size_t_inc (lineNum st) in
  let trimmed := trimCopy line in
  if Str.empty trimmed then
    {| ls_tree := ls_tree st; ls_index := ls_index st; lineNum := n;
       loaded := loaded st; skipped := skipped st; ls_cerr := ls_cerr st |}
  else
    let parts := splitCSV trimmed in
    if (length parts <? 2)%nat then
      {| ls_tree := ls_tree st; ls_index := ls_index st; lineNum := n;
         loaded := loaded st; skipped := size_t_inc (skipped st);
         ls_cerr := ls_cerr st ++ warn_line n |}
    else
      let c := makeCourse parts in
      {| ls_tree := BST.insertOrAssign (ls_tree st) c;
         ls_index := <[number c := title c]> (ls_index st);
         lineNum := n; loaded := size_t_inc (loaded st);
         skipped := skipped st; ls_cerr := ls_cerr st |}.

(** The state the loop starts from, after the reset of the members. *)
Definition loadStart (p : CoursePlanner) : LoadState :=
  {| ls_tree := BST.clearAll (tree_ p); ls_index := ∅; lineNum := 0;
     loaded := 0; skipped := 0; ls_cerr := [] |}.

Definition loadLoop (lines : list string) (st : LoadState) : LoadState :=
  fold_left loadLine lines st.

(** [loadFromFile(filename, outError)]; [file] is what opening and
    reading [filename] gives, [err] the value of [outError] on entry. *)
Definition loadFromFile (file : option (list string)) (filename : string)
    (err : string) (p : CoursePlanner) : LoadResult :=
  match file with
  | None =>
      {| ret := false; outError := err_open filename; planner := p;
         load_cout := []; load_cerr := [] |}
  | Some lines =>
      let st := loadLoop lines (loadStart p) in
      if loaded st =? 0 then
        {| ret := false; outError := err_no_records;
           planner := {| tree_ := ls_tree st; index_ := ls_index st;
                         loaded_ := loaded_ p;
                         lastFilename_ := lastFilename_ p |};
           load_cout := []; load_cerr := ls_cerr st |}
      else
        {| ret := true; outError := err;
           planner := {| tree_ := ls_tree st; index_ := ls_index st;
                         loaded_ := true; lastFilename_ := filename |};
           load_cout :=
             [OutStr "Loaded "; OutNum (loaded st); OutStr " course(s)"]
             ++ (if skipped st =? 0 then []
                 else [OutStr " ("; OutNum (skipped st);
                       OutStr " line(s) skipped for format issues)"])
             ++ [OutStr ("." +:+ LF)];
           load_cerr := ls_cerr st |}
  end.

Definition isLoaded (p : CoursePlanner) : bool := loaded_ p.

Definition rule : string := "-----------------------------------------" +:+ LF.

(** The lambda of [printCourseList]; it captures [std::cout] and
    [count]. *)
Definition listVisitor (c : Course) (s : list Out * Z) : list Out * Z :=
  (s.1 ++ [OutStr (number c); OutStr ", "; OutStr (title c); OutStr LF],
   size_t_inc s.2).

(** [printCourseList()]: what it writes to [std::cout]. *)
Definition printCourseList (p : CoursePlanner) : list Out :=
  if negb (loaded_ p) then msg_load_first
  else
    let s := BST.inOrder (tree_ p) listVisitor
               ([OutStr (LF +:+ "ABCU Computer Science Course List (sorted)"
                         +:+ LF);
                 OutStr rule], 0) in
    s.1 ++ [OutStr rule; OutStr "Total: "; OutNum s.2;
            OutStr (" course(s)" +:+ LF +:+ LF)].

(** The body of the loop over [c->prereqs]. *)
Definition prereqLine (index : gmap string string) (p : string) : list Out :=
  match index !! p with
  | Some t => [OutStr "  - "; OutStr p; OutStr ": "; OutStr t; OutStr LF]
  | None => [OutStr "  - "; OutStr p;
             OutStr (" (title not found in file)" +:+ LF)]
  end.

Fixpoint prereqLines (index : gmap string string) (ps : list string)
    (out : list Out) : list Out :=
  match ps with
  | [] => out
  | p :: ps' => prereqLines index ps' (out ++ prereqLine index p)
  end.

(** [printCourseInfo(rawNumber)]: what it writes to [std::cout]. *)
Definition printCourseInfo (p : CoursePlanner) (rawNumber : string)
  : list Out :=
  if negb (loaded_ p) then msg_load_first
  else
    let num := toUpperInPlace (trimCopy rawNumber) in
    if Str.empty num then msg_empty_number
    else
      match BST.find (tree_ p) num with
      | None => msg_not_found num
      | Some c =>
          let out := [OutStr LF; OutStr (number c); OutStr ": ";
                      OutStr (title c); OutStr LF] in
          if bool_decide (prereqs c = []) then out ++ msg_prereq_none
          else
            prereqLines (index_ p) (prereqs c)
              (out ++ [OutStr ("Prerequisites:" +:+ LF)])
            ++ [OutStr LF]
      end.

End Planner.

(** ** Vocabulary of the statements *)

(** The nodes of a tree from left to right. *)
Fixpoint elems (n : NodePtr) : list Course :=
  match n with
  | nullptr => []
  | Node nc l r => elems l ++ nc :: elems r
  end.

(** Strictly ascending course numbers, in the order [std::string]'s
    [operator<] gives. *)
Definition key_lt (a b : Course) : Prop :=
  String.ltb (number a) (number b) = true.

(** The search-tree shape: at every node the numbers on the left are
    smaller and those on the right larger. *)
Fixpoint ordered (n : NodePtr) : Prop :=
  match n with
  | nullptr => True
  | Node nc l r =>
      ordered l /\ ordered r /\
      Forall (fun c => key_lt c nc) (elems l) /\
      Forall (fun c => key_lt nc c) (elems r)
  end.

(** Trim, then upper-case: what [printCourseInfo] does to its argument. *)
Definition normalize (raw : string) : string :=
  toUpperInPlace (trimCopy raw).

(** The course a line of the file contributes: none for a blank line or a
    line with fewer than two fields. *)
Definition rowCourse (line : string) : option Course :=
  let trimmed := trimCopy line in
  if Str.empty trimmed then None
  else
    let parts := splitCSV trimmed in
    if (length parts <? 2)%nat then None
    else Some (Planner.makeCourse parts).

Definition blankRow (line : string) : Prop := trimCopy line = EmptyString.

Definition shortRow (line : string) : Prop :=
  trimCopy line <> EmptyString /\
  (length (splitCSV (trimCopy line)) < 2)%nat.

Definition courses (lines : list string) : list Course :=
  omap rowCourse lines.

Definition assign (m : gmap string Course) (c : Course)
  : gmap string Course :=
  <[number c := c]> m.

(** The finite map a sequence of insert-or-assign calls builds: a later
    course replaces an earlier one with the same number. *)
Definition courseMap (cs : list Course) : gmap string Course :=
  fold_left assign cs ∅.

(** The tree [t] holds the finite map [m]: it is a search tree, [find]
    answers as [m] does, and [count_] is the size of [m] as a [size_t]. *)
Definition Rep (t : CourseBST) (m : gmap string Course) : Prop :=
  ordered (root_ t) /\
  (forall q, BST.find t q = m !! q) /\
  count_ t = Z.of_nat (size m) mod 2 ^ 64.

(** Loop invariant of [loadFromFile], after the lines [done]. *)
Definition LoopInv (done : list string) (st : LoadState) : Prop :=
  Rep (ls_tree st) (courseMap (courses done)) /\
  ls_index st = title <$> courseMap (courses done) /\
  loaded st = Z.of_nat (length (courses done)) mod 2 ^ 64 /\
  lineNum st = Z.of_nat (length done) mod 2 ^ 64.

(** A session: the calls of [loadFromFile] made so far, each with what
    opening its file gives, and the values they returned. *)
Fixpoint runLoads (calls : list (option (list string) * string))
    (p : CoursePlanner) : CoursePlanner * list bool :=
  match calls with
  | [] => (p, [])
  | (file, filename) :: calls' =>
      let r := Planner.loadFromFile file filename EmptyString p in
      let '(p', rets) := runLoads calls' (planner r) in
      (p', ret r :: rets)
  end.

(** The lines [printCourseList] writes for the courses [cs]. *)
Definition listingLines (cs : list Course) : list Out :=
  cs ≫= (fun c => [OutStr (number c); OutStr ", "; OutStr (title c);
                   OutStr LF]).

(** The sample file of the header comment of the program, which is also
    the first example of the design document. *)
Definition ex1_lines : list string :=
  ["CSCI100,Introduction to Computer Science";
   "CSCI200,Data Structures,CSCI100";
   "MATH201,Discrete Mathematics,MATH101,CSCI100"].

Definition ex1 : LoadResult :=
  Planner.loadFromFile (Some ex1_lines) "courses.csv" EmptyString
    Planner.init.

(** ** Vocabulary for the helpers and the tree *)

(** Every character is white space. *)
Fixpoint all_space (s : string) : bool :=
  match s with
  | EmptyString => true
  | String ch s' => Str.isspace ch && all_space s'
  end.

Definition first_char (s : string) : option ascii :=
  match s with
  | EmptyString => None
  | String ch _ => Some ch
  end.

Fixpoint last_char (s : string) : option ascii :=
  match s with
  | EmptyString => None
  | String ch EmptyString => Some ch
  | String _ s' => last_char s'
  end.

(** A lower-case letter of the "C" locale. *)
Definition is_lower (ch : ascii) : bool :=
  let n := N_of_ascii ch in ((97 <=? n) && (n <=? 122))%N.

Fixpoint any_lower (s : string) : bool :=
  match s with
  | EmptyString => false
  | String ch s' => is_lower ch || any_lower s'
  end.

Fixpoint has_comma (s : string) : bool :=
  match s with
  | EmptyString => false
  | String ch s' => Ascii.eqb ch comma || has_comma s'
  end.

(** The text of a line with the given fields. *)
Definition joinCSV (fields : list string) : string :=
  String.concat (String comma EmptyString) fields.

(** The shape of a tree: its nodes with the course numbers only. *)
Fixpoint skeleton (n : NodePtr) : NodePtr :=
  match n with
  | nullptr => nullptr
  | Node nc l r =>
      Node {| number := number nc; title := EmptyString; prereqs := [] |}
        (skeleton l) (skeleton r)
  end.

(** The number of nodes on the longest path from the root: the number of
    iterations [find] may need. *)
Fixpoint height (n : NodePtr) : nat :=
  match n with
  | nullptr => O
  | Node _ l r => S (Nat.max (height l) (height r))
  end.

(** The number of nodes [find] compares with before it answers. *)
Fixpoint find_steps (cur : NodePtr) (num : string) : nat :=
  match cur with
  | nullptr => O
  | Node nc l r =>
      if String.eqb num (number nc) then 1%nat
      else if String.ltb num (number nc) then S (find_steps l num)
      else S (find_steps r num)
  end.

(** The tree in which every node has a right child only. *)
Fixpoint right_spine (cs : list Course) : NodePtr :=
  match cs with
  | [] => nullptr
  | c :: cs' => Node c nullptr (right_spine cs')
  end.

(** ** Vocabulary for the load report *)

(** A line that is not blank and has fewer than two parts. *)
Definition isShortRow (line : string) : bool :=
  negb (Str.empty (trimCopy line))
  && (length (splitCSV (trimCopy line)) <? 2)%nat.

(** The warnings for the short rows among [lines], the first of which is
    line [n + 1] of the file. *)
Fixpoint warnings (n : nat) (lines : list string) : list Out :=
  match lines with
  | [] => []
  | line :: lines' =>
      (if isShortRow line
       then [OutStr "Warning (line "; OutNum (Z.of_nat (S n) mod 2 ^ 64);
             OutStr ("): expected at least course number and title. Skipping line."
                     +:+ LF)]
       else [])
      ++ warnings (S n) lines'
  end.

(** ** Menu loop *)

(** [printMenu()]: what it writes to [std::cout]. *)
Definition printMenu : list Out :=
  [OutStr ("================= ABCU Advising Assistance ================="
           +:+ LF);
   OutStr ("1. Load data structure from file" +:+ LF);
   OutStr ("2. Print an alphanumeric list of all courses" +:+ LF);
   OutStr ("3. Print course information (title and prerequisites)" +:+ LF);
   OutStr ("9. Exit" +:+ LF);
   OutStr ("============================================================="
           +:+ LF);
   OutStr "Enter your choice (1, 2, 3, or 9): "].

Definition msg_closed : Out :=
  OutStr (LF +:+ "Input stream closed. Exiting." +:+ LF).

Definition msg_goodbye : Out := OutStr ("Goodbye!" +:+ LF).

Definition msg_no_filename : Out :=
  OutStr ("Error: filename cannot be empty." +:+ LF +:+ LF).

Definition msg_invalid : Out :=
  OutStr ("Invalid selection. Please enter 1, 2, 3, or 9." +:+ LF +:+ LF).

(** What a run of [main] leaves: the two output streams and the planner. *)
Record Console := mkConsole {
  con_out : list Out;
  con_err : list Out;
  con_planner : CoursePlanner
}.

(** The [while (true)] loop of [main]. [stdin] holds the lines
    [std::getline(std::cin, _)] is still to return, [fs] tells what opening
    a file name gives (the files do not change during the run). A
    [std::getline] at the end of the input fails and leaves its string
    empty. *)
Fixpoint mainLoop (fs : string -> option (list string)) (stdin : list string)
    (p : CoursePlanner) (out err : list Out) : Console :=
  let out := out ++ printMenu in
  match stdin with
  | [] => {| con_out := out ++ [msg_closed]; con_err := err;
             con_planner := p |}
  | choiceLine :: rest =>
      let choice := trimCopy choiceLine in
      if String.eqb choice "1" then
        let out :=
          out ++ [OutStr "Enter the course data filename (e.g., courses.csv): "]
        in
        match rest with
        | [] => mainLoop fs rest p (out ++ [msg_no_filename]) err
        | fnameLine :: rest' =>
            let fname := trimCopy fnameLine in
            if Str.empty fname then
              mainLoop fs rest' p (out ++ [msg_no_filename]) err
            else
              let r := Planner.loadFromFile (fs fname) fname EmptyString p in
              if ret r then
                mainLoop fs rest' (planner r)
                  (out ++ load_cout r
                   ++ [OutStr ("File " +:+ DQ);
                       OutStr (lastFilename_ (planner r));
                       OutStr (DQ +:+ " loaded successfully." +:+ LF +:+ LF)])
                  (err ++ load_cerr r)
              else
                mainLoop fs rest' (planner r)
                  (out ++ load_cout r
                   ++ [OutStr (outError r); OutStr (LF +:+ LF)])
                  (err ++ load_cerr r)
        end
      else if String.eqb choice "2" then
        mainLoop fs rest p (out ++ Planner.printCourseList p) err
      else if String.eqb choice "3" then
        let out :=
          out ++ [OutStr "Enter a course number to look up (e.g., CSCI200): "]
        in
        match rest with
        | [] =>
            mainLoop fs rest p (out ++ Planner.printCourseInfo p EmptyString)
              err
        | num :: rest' =>
            mainLoop fs rest' p (out ++ Planner.printCourseInfo p num) err
        end
      else if String.eqb choice "9" then
        {| con_out := out ++ [msg_goodbye]; con_err := err;
           con_planner := p |}
      else
        mainLoop fs rest p (out ++ [msg_invalid]) err
  end.

(** The loads a run asks for, read off the input alone: after each line
    that is taken as a choice and is 1 up to white space, the next line,
    trimmed, is a file name, and it is loaded unless it is empty. A choice
    of 3 takes the next line as a course number, a choice of 9 ends the
    run, and no other choice asks for a load. *)
Fixpoint loadCalls (fs : string -> option (list string))
    (stdin : list string) : list (option (list string) * string) :=
  match stdin with
  | [] => []
  | choiceLine :: rest =>
      if String.eqb (trimCopy choiceLine) "1" then
        match rest with
        | [] => []
        | fnameLine :: rest' =>
            if Str.empty (trimCopy fnameLine) then loadCalls fs rest'
            else (fs (trimCopy fnameLine), trimCopy fnameLine)
                 :: loadCalls fs rest'
        end
      else if String.eqb (trimCopy choiceLine) "2" then loadCalls fs rest
      else if String.eqb (trimCopy choiceLine) "3" then
        match rest with
        | [] => []
        | _ :: rest' => loadCalls fs rest'
        end
      else if String.eqb (trimCopy choiceLine) "9" then []
      else loadCalls fs rest
  end.

(** [main()], up to its return value, which is always 0. *)
Definition main (fs : string -> option (list string)) (stdin : list string)
  : Console :=
  mainLoop fs stdin Planner.init [] [].

(** The store and the index of a planner hold the same courses. *)
Definition Consistent (p : CoursePlanner) : Prop :=
  exists m : gmap string Course,
    Rep (tree_ p) m /\ index_ p = title <$> m.

(** * Properties *)

(** ** The order on course numbers *)

Section StringOrder.

Lemma ascii_compare_refl (a : ascii) : Ascii.compare a a = Eq.
Proof. unfold Ascii.compare. apply N.compare_refl. Qed.

Lemma ascii_compare_lt_trans (a b c : ascii) :
  Ascii.compare a b = Lt -> Ascii.compare b c = Lt -> Ascii.compare a c = Lt.
Proof.
  unfold Ascii.compare. rewrite !N.compare_lt_iff. apply N.lt_trans.
Qed.

Lemma compare_refl (s : string) : String.compare s s = Eq.
Proof.
  induction s as [|a s IH]; simpl; [reflexivity|].
  now rewrite ascii_compare_refl.
Qed.

Lemma compare_lt_trans (s1 s2 s3 : string) :
  String.compare s1 s2 = Lt -> String.compare s2 s3 = Lt ->
  String.compare s1 s3 = Lt.
Proof.
  revert s2 s3.
  induction s1 as [|a s1 IH]; intros [|b s2] [|c s3]; simpl;
    try congruence.
  destruct (Ascii.compare a b) eqn:Hab; try discriminate;
    destruct (Ascii.compare b c) eqn:Hbc; try discriminate; intros H1 H2.
  - apply Ascii.compare_eq_iff in Hab, Hbc. subst.
    rewrite ascii_compare_refl. eauto.
  - apply Ascii.compare_eq_iff in Hab. subst. now rewrite Hbc.
  - apply Ascii.compare_eq_iff in Hbc. subst. now rewrite Hab.
  - now rewrite (ascii_compare_lt_trans _ _ _ Hab Hbc).
Qed.

Lemma ltb_lt (a b : string) : String.ltb a b = true <-> String.compare a b = Lt.
Proof. unfold String.ltb. destruct (String.compare a b); intuition congruence. Qed.

Lemma ltb_irrefl (a : string) : String.ltb a a = false.
Proof. unfold String.ltb. now rewrite compare_refl. Qed.

Lemma ltb_trans (a b c : string) :
  String.ltb a b = true -> String.ltb b c = true -> String.ltb a c = true.
Proof. rewrite !ltb_lt. apply compare_lt_trans. Qed.

Lemma ltb_asym (a b : string) :
  String.ltb a b = true -> String.ltb b a = false.
Proof.
  intros H. destruct (String.ltb b a) eqn:E; [|reflexivity].
  pose proof (ltb_trans _ _ _ H E) as F. now rewrite ltb_irrefl in F.
Qed.

(** Neither [a < b] nor [b < a]: the two numbers are the same string. *)
Lemma ltb_total (a b : string) :
  String.ltb a b = false -> String.ltb b a = false -> a = b.
Proof.
  unfold String.ltb. rewrite (String.compare_antisym b a).
  destruct (String.compare a b) eqn:E; simpl; try discriminate.
  intros _ _. now apply String.compare_eq_iff.
Qed.

Lemma ltb_neq (a b : string) : String.ltb a b = true -> a <> b.
Proof. intros H ->. now rewrite ltb_irrefl in H. Qed.

End StringOrder.

(** ** Trimming and letter case *)

Section Normalize.

Lemma isspace_toupper (ch : ascii) :
  Str.isspace (Str.toupper ch) = Str.isspace ch.
Proof. destruct ch as [[] [] [] [] [] [] [] []]; reflexivity. Qed.

Lemma toupper_idem (ch : ascii) :
  Str.toupper (Str.toupper ch) = Str.toupper ch.
Proof. destruct ch as [[] [] [] [] [] [] [] []]; reflexivity. Qed.

Lemma toupper_tolower (ch : ascii) :
  Str.toupper (Str.tolower ch) = Str.toupper ch.
Proof. destruct ch as [[] [] [] [] [] [] [] []]; reflexivity. Qed.

Lemma skip_front_upper (s : string) :
  Str.skip_front (toUpperInPlace s) = toUpperInPlace (Str.skip_front s).
Proof.
  induction s as [|ch s IH]; simpl; [reflexivity|].
  rewrite isspace_toupper. now destruct (Str.isspace ch).
Qed.

Lemma skip_back_upper (s : string) :
  Str.skip_back (toUpperInPlace s) = toUpperInPlace (Str.skip_back s).
Proof.
  induction s as [|ch s IH]; simpl; [reflexivity|].
  unfold toUpperInPlace in IH. rewrite IH, isspace_toupper.
  destruct (Str.skip_back s); simpl; [|reflexivity].
  now destruct (Str.isspace ch).
Qed.

(** Trimming and upper-casing commute: the normal form of a query is the
    trimmed form of its upper-cased text. *)
Lemma trimCopy_upper (s : string) :
  trimCopy (toUpperInPlace s) = toUpperInPlace (trimCopy s).
Proof. unfold trimCopy. now rewrite skip_front_upper, skip_back_upper. Qed.

Lemma upper_upper (s : string) :
  toUpperInPlace (toUpperInPlace s) = toUpperInPlace s.
Proof.
  unfold toUpperInPlace.
  induction s as [|ch s IH]; simpl; [reflexivity|].
  now rewrite IH, toupper_idem.
Qed.

Lemma upper_lower (s : string) :
  toUpperInPlace (Str.map Str.tolower s) = toUpperInPlace s.
Proof.
  unfold toUpperInPlace.
  induction s as [|ch s IH]; simpl; [reflexivity|].
  now rewrite IH, toupper_tolower.
Qed.

End Normalize.

(** ** Splitting a line *)

Section Split.

Lemma getline_rest_shorter (s : string) :
  (String.length (getline_rest s).2 <= String.length s)%nat.
Proof.
  induction s as [|ch s IH]; simpl; [lia|].
  destruct (Ascii.eqb ch comma); simpl; [lia|].
  destruct (getline_rest s) as [cur rest]. simpl in *. lia.
Qed.

Lemma getline_comma_shorter (s cur rest : string) :
  getline_comma s = Some (cur, rest) ->
  (String.length rest < String.length s)%nat.
Proof.
  destruct s as [|ch s]; [discriminate|]. simpl.
  destruct (Ascii.eqb ch comma).
  - intros [= <- <-]. lia.
  - pose proof (getline_rest_shorter s) as H.
    destruct (getline_rest s) as [cur' rest']. intros [= <- <-].
    simpl in *. lia.
Qed.

(** The loop of [splitCSV] ends by itself: with any bound on the number of
    iterations that is at least the length of the line, the parts are
    those [splitCSV] returns. *)
Lemma splitCSV_loop_fuel (n : nat) (s : string) :
  (String.length s <= n)%nat -> splitCSV_loop n s = splitCSV s.
Proof.
  unfold splitCSV.
  assert (forall n m t, (String.length t <= n)%nat ->
                        (String.length t <= m)%nat ->
                        splitCSV_loop n t = splitCSV_loop m t) as H.
  { clear. induction n as [|n IH]; intros m t Hn Hm.
    - destruct t; [|simpl in Hn; lia]. now destruct m.
    - destruct m as [|m].
      + destruct t; [reflexivity|simpl in Hm; lia].
      + simpl. destruct (getline_comma t) as [[cur rest]|] eqn:E;
          [|reflexivity].
        apply getline_comma_shorter in E. f_equal. apply IH; lia. }
  intros Hn. apply H; [exact Hn|lia].
Qed.

End Split.

(** ** The search tree *)

Section Tree.

Lemma inOrderImpl_elems {S : Type} (n : NodePtr) (fn : Course -> S -> S)
    (s : S) :
  BST.inOrderImpl n fn s = fold_left (fun s c => fn c s) (elems n) s.
Proof.
  revert s. induction n as [|nc l IHl r IHr]; intros s; simpl;
    [reflexivity|].
  now rewrite fold_left_app, IHl, IHr.
Qed.

Lemma fold_snoc {A} (l acc : list A) :
  fold_left (fun s c => s ++ [c]) l acc = acc ++ l.
Proof.
  revert acc. induction l as [|x l IH]; intros acc; simpl.
  - now rewrite app_nil_r.
  - now rewrite IH, <- app_assoc.
Qed.

Lemma visited_elems (t : CourseBST) : BST.visited t = elems (root_ t).
Proof.
  unfold BST.visited, BST.inOrder. now rewrite inOrderImpl_elems, fold_snoc.
Qed.

Lemma sorted_join (l1 l2 : list Course) (x : Course) :
  StronglySorted key_lt l1 -> StronglySorted key_lt l2 ->
  Forall (fun c => key_lt c x) l1 -> Forall (fun c => key_lt x c) l2 ->
  StronglySorted key_lt (l1 ++ x :: l2).
Proof.
  intros S1 S2 F1 F2. induction S1 as [|a l1 S1 IH Ha]; simpl.
  - now constructor.
  - inversion F1; subst. constructor; [now apply IH|].
    apply Forall_app; split; [assumption|]. constructor; [assumption|].
    eapply Forall_impl; [exact F2|]. intros c Hc. unfold key_lt in *.
    eapply ltb_trans; eassumption.
Qed.

Lemma ordered_sorted (n : NodePtr) :
  ordered n -> StronglySorted key_lt (elems n).
Proof.
  induction n as [|nc l IHl r IHr]; simpl; [constructor|].
  intros (Hl & Hr & Fl & Fr). apply sorted_join; auto.
Qed.

Lemma sorted_NoDup (l : list Course) :
  StronglySorted key_lt l -> NoDup (number <$> l).
Proof.
  induction 1 as [|a l S IH Ha]; simpl; constructor; [|assumption].
  intros Hin. apply list_elem_of_fmap in Hin as (c & Hc & Hin).
  rewrite Forall_forall in Ha. specialize (Ha c Hin).
  unfold key_lt in Ha. rewrite Hc in Ha. now rewrite ltb_irrefl in Ha.
Qed.

Lemma insert_elems_key (Q : string -> Prop) (n : NodePtr) (c : Course)
    (k : Z) :
  Forall (fun x => Q (number x)) (elems n) -> Q (number c) ->
  Forall (fun x => Q (number x)) (elems (BST.insertOrAssignImpl n c k).1).
Proof.
  induction n as [|nc l IHl r IHr]; simpl; intros F Hc.
  - constructor; [assumption|constructor].
  - apply Forall_app in F as [Fl F]. inversion F as [|? ? Hn Fr]; subst.
    destruct (String.ltb (number c) (number nc)).
    + destruct (BST.insertOrAssignImpl l c k) as [l' k'] eqn:E. simpl.
      specialize (IHl Fl Hc).
      apply Forall_app; split; [exact IHl|now constructor].
    + destruct (String.ltb (number nc) (number c)).
      * destruct (BST.insertOrAssignImpl r c k) as [r' k'] eqn:E. simpl.
        specialize (IHr Fr Hc).
        apply Forall_app; split; [exact Fl|now constructor].
      * simpl. apply Forall_app; split; [exact Fl|now constructor].
Qed.

Lemma insert_ordered (n : NodePtr) (c : Course) (k : Z) :
  ordered n -> ordered (BST.insertOrAssignImpl n c k).1.
Proof.
  induction n as [|nc l IHl r IHr]; simpl.
  - intros _. repeat split; constructor.
  - intros (Hl & Hr & Fl & Fr).
    destruct (String.ltb (number c) (number nc)) eqn:E1.
    + pose proof (insert_elems_key
                    (fun s => String.ltb s (number nc) = true) l c k Fl E1).
      specialize (IHl Hl).
      destruct (BST.insertOrAssignImpl l c k) as [l' k']. simpl in *. auto.
    + destruct (String.ltb (number nc) (number c)) eqn:E2.
      * pose proof (insert_elems_key
                      (fun s => String.ltb (number nc) s = true) r c k Fr E2).
        specialize (IHr Hr).
        destruct (BST.insertOrAssignImpl r c k) as [r' k']. simpl in *. auto.
      * simpl. auto.
Qed.

(** After [insertOrAssign(c)] a search for [c]'s number finds [c]; every
    other search is answered as before. *)
Lemma find_insert (n : NodePtr) (c : Course) (k : Z) (q : string) :
  BST.find_from (BST.insertOrAssignImpl n c k).1 q =
  if decide (q = number c) then Some c else BST.find_from n q.
Proof.
  induction n as [|nc l IHl r IHr]; simpl.
  - destruct (String.eqb_spec q (number c)) as [->|Hne].
    + now rewrite decide_True.
    + rewrite decide_False by assumption. now destruct (String.ltb q (number c)).
  - destruct (String.ltb (number c) (number nc)) eqn:E1.
    + destruct (BST.insertOrAssignImpl l c k) as [l' k']. simpl in *.
      destruct (String.eqb_spec q (number nc)) as [->|Hne].
      * rewrite decide_False; [reflexivity|]. intros H.
        apply ltb_neq in E1. congruence.
      * destruct (String.ltb q (number nc)) eqn:E3; [exact IHl|].
        rewrite decide_False; [reflexivity|]. intros ->. congruence.
    + destruct (String.ltb (number nc) (number c)) eqn:E2.
      * destruct (BST.insertOrAssignImpl r c k) as [r' k']. simpl in *.
        destruct (String.eqb_spec q (number nc)) as [->|Hne].
        -- rewrite decide_False; [reflexivity|]. intros H.
           apply ltb_neq in E2. congruence.
        -- destruct (String.ltb q (number nc)) eqn:E3; [|exact IHr].
           rewrite decide_False; [reflexivity|]. intros ->. congruence.
      * pose proof (ltb_total _ _ E1 E2) as Heq. simpl. rewrite <- Heq.
        destruct (String.eqb_spec q (number c)) as [->|Hne].
        -- rewrite decide_True by reflexivity. now destruct c.
        -- rewrite decide_False by assumption. now rewrite Heq.
Qed.

(** [count_] grows exactly when the number was not in the tree. *)
Lemma insert_count (n : NodePtr) (c : Course) (k : Z) :
  (BST.insertOrAssignImpl n c k).2 =
  match BST.find_from n (number c) with
  | Some _ => k
  | None => size_t_inc k
  end.
Proof.
  induction n as [|nc l IHl r IHr]; simpl; [reflexivity|].
  destruct (String.ltb (number c) (number nc)) eqn:E1.
  - destruct (BST.insertOrAssignImpl l c k) as [l' k']. simpl in *.
    destruct (String.eqb_spec (number c) (number nc)) as [Heq|Hne];
      [|exact IHl].
    apply ltb_neq in E1. contradiction.
  - destruct (String.ltb (number nc) (number c)) eqn:E2.
    + destruct (BST.insertOrAssignImpl r c k) as [r' k']. simpl in *.
      destruct (String.eqb_spec (number c) (number nc)) as [Heq|Hne];
        [|exact IHr].
      apply ltb_neq in E2. congruence.
    + pose proof (ltb_total _ _ E1 E2) as Heq. simpl.
      now rewrite Heq, String.eqb_refl.
Qed.

Lemma find_number (n : NodePtr) (q : string) (c : Course) :
  BST.find_from n q = Some c -> number c = q.
Proof.
  induction n as [|nc l IHl r IHr]; simpl; [discriminate|].
  destruct (String.eqb_spec q (number nc)) as [->|Hne].
  - congruence.
  - destruct (String.ltb q (number nc)); auto.
Qed.

(** In a search tree the nodes are exactly the courses [find] returns. *)
Lemma find_elems (n : NodePtr) (c : Course) :
  ordered n -> c ∈ elems n <-> BST.find_from n (number c) = Some c.
Proof.
  induction n as [|nc l IHl r IHr]; simpl.
  - intros _. split; [intros H; inversion H|discriminate].
  - intros (Hl & Hr & Fl & Fr). rewrite Forall_forall in Fl, Fr.
    rewrite elem_of_app, elem_of_cons.
    destruct (String.eqb_spec (number c) (number nc)) as [Heq|Hne].
    + split.
      * intros [H|[->|H]]; [| reflexivity |].
        -- apply Fl in H. apply ltb_neq in H. contradiction.
        -- apply Fr in H. apply ltb_neq in H. congruence.
      * intros [= ->]. auto.
    + destruct (String.ltb (number c) (number nc)) eqn:E.
      * rewrite <- (IHl Hl). split; [|auto].
        intros [H|[->|H]]; [assumption|congruence|].
        apply Fr in H. apply ltb_asym in H. unfold key_lt in *. congruence.
      * rewrite <- (IHr Hr). split; [|auto].
        intros [H|[->|H]]; [|congruence|assumption].
        apply Fl in H. unfold key_lt in *. congruence.
Qed.

End Tree.

(** ** The finite map a load builds *)

Section CourseMap.

Implicit Types (cs : list Course) (m : gmap string Course).

Lemma courseMap_snoc cs c :
  courseMap (cs ++ [c]) = <[number c := c]> (courseMap cs).
Proof. unfold courseMap. now rewrite fold_left_app. Qed.

Lemma assign_fold_notin cs m k :
  k ∉ number <$> cs -> fold_left assign cs m !! k = m !! k.
Proof.
  revert m. induction cs as [|c cs IH]; intros m Hk; simpl; [reflexivity|].
  rewrite fmap_cons, not_elem_of_cons in Hk. destruct Hk as [Hne Hk].
  rewrite IH by assumption. unfold assign. now rewrite lookup_insert_ne.
Qed.

(** The last course carrying a number is the one the map keeps. *)
Lemma courseMap_last cs1 c cs2 :
  number c ∉ number <$> cs2 ->
  courseMap (cs1 ++ c :: cs2) !! number c = Some c.
Proof.
  intros Hk. unfold courseMap. rewrite fold_left_app. simpl.
  change (fold_left assign cs2 (assign (fold_left assign cs1 ∅) c)
            !! number c = Some c).
  rewrite assign_fold_notin by assumption. apply lookup_insert_eq.
Qed.

Lemma courseMap_dom cs :
  dom (courseMap cs) = list_to_set (number <$> cs).
Proof.
  induction cs as [|d cs IH] using rev_ind.
  - unfold courseMap. simpl. apply dom_empty_L.
  - rewrite courseMap_snoc, dom_insert_L, IH, fmap_app, list_to_set_app_L.
    simpl. rewrite (right_id_L ∅ (∪)). apply (comm_L (∪)).
Qed.

Lemma size_union_le (X Y : gset string) :
  (size (X ∪ Y) <= size X + size Y)%nat.
Proof.
  rewrite size_union_alt.
  assert (size (Y ∖ X) <= size Y)%nat; [|lia].
  apply subseteq_size, subseteq_difference_l. reflexivity.
Qed.

Lemma size_list_to_set_le (l : list string) :
  (size (list_to_set l : gset string) <= length l)%nat.
Proof.
  induction l as [|x l IH]; cbn [list_to_set length].
  - rewrite size_empty. lia.
  - etransitivity; [apply size_union_le|]. rewrite size_singleton. lia.
Qed.

Lemma size_list_to_set_dup (l : list string) :
  ~ NoDup l -> (size (list_to_set l : gset string) < length l)%nat.
Proof.
  induction l as [|x l IH]; intros Hn.
  - destruct Hn. constructor.
  - cbn [list_to_set length]. destruct (decide (x ∈ l)) as [Hin|Hout].
    + replace ({[x]} ∪ list_to_set l : gset string)
        with (list_to_set l : gset string).
      * pose proof (size_list_to_set_le l). lia.
      * symmetry. apply subseteq_union_1_L.
        apply singleton_subseteq_l, elem_of_list_to_set, Hin.
    + assert (~ NoDup l) as Hl.
      { intros Hl. apply Hn. now constructor. }
      specialize (IH Hl).
      pose proof (size_union_le ({[x]} : gset string) (list_to_set l)) as Hu.
      rewrite size_singleton in Hu. lia.
Qed.

Lemma courseMap_size cs : size (courseMap cs) = size (list_to_set (number <$> cs) : gset string).
Proof. now rewrite <- courseMap_dom, size_dom. Qed.

End CourseMap.

(** ** The loading loop *)

Section Loading.

Lemma size_t_inc_of_nat (n : nat) :
  size_t_inc (Z.of_nat n mod 2 ^ 64) = Z.of_nat (S n) mod 2 ^ 64.
Proof.
  unfold size_t_inc. rewrite Zplus_mod_idemp_l. f_equal. lia.
Qed.

(** Every line is blank, short, or a course row. *)
Lemma row_cases (line : string) :
  blankRow line \/ shortRow line \/ exists c, rowCourse line = Some c.
Proof.
  unfold blankRow, shortRow, rowCourse.
  destruct (trimCopy line) as [|a t] eqn:E; [now left|right]. simpl.
  destruct (length (splitCSV (String a t)) <? 2)%nat eqn:L.
  - left. apply Nat.ltb_lt in L. split; [discriminate|exact L].
  - right. eauto.
Qed.

Lemma rowCourse_blank (line : string) : blankRow line -> rowCourse line = None.
Proof. unfold blankRow, rowCourse. now intros ->. Qed.

Lemma rowCourse_short (line : string) : shortRow line -> rowCourse line = None.
Proof.
  unfold shortRow, rowCourse. intros [_ L]. apply Nat.ltb_lt in L.
  rewrite L. now destruct (Str.empty (trimCopy line)).
Qed.

Lemma loadLine_blank (st : LoadState) (line : string) :
  blankRow line ->
  Planner.loadLine st line =
  {| ls_tree := ls_tree st; ls_index := ls_index st;
     lineNum := size_t_inc (lineNum st); loaded := loaded st;
     skipped := skipped st; ls_cerr := ls_cerr st |}.
Proof. unfold blankRow, Planner.loadLine. now intros ->. Qed.

Lemma loadLine_short (st : LoadState) (line : string) :
  shortRow line ->
  Planner.loadLine st line =
  {| ls_tree := ls_tree st; ls_index := ls_index st;
     lineNum := size_t_inc (lineNum st); loaded := loaded st;
     skipped := size_t_inc (skipped st);
     ls_cerr := ls_cerr st
                ++ Planner.warn_line (size_t_inc (lineNum st)) |}.
Proof.
  unfold shortRow, Planner.loadLine. intros [Hne L].
  apply Nat.ltb_lt in L. rewrite L.
  destruct (trimCopy line); [contradiction|reflexivity].
Qed.

Lemma loadLine_valid (st : LoadState) (line : string) (c : Course) :
  rowCourse line = Some c ->
  Planner.loadLine st line =
  {| ls_tree := BST.insertOrAssign (ls_tree st) c;
     ls_index := <[number c := title c]> (ls_index st);
     lineNum := size_t_inc (lineNum st);
     loaded := size_t_inc (loaded st);
     skipped := skipped st; ls_cerr := ls_cerr st |}.
Proof.
  unfold rowCourse, Planner.loadLine.
  destruct (Str.empty (trimCopy line)); [discriminate|].
  destruct (length (splitCSV (trimCopy line)) <? 2)%nat; [discriminate|].
  now intros [= <-].
Qed.

Lemma Rep_clear (t : CourseBST) : Rep (BST.clearAll t) ∅.
Proof.
  split; [exact I|split].
  - intros q. now rewrite lookup_empty.
  - now rewrite map_size_empty.
Qed.

Lemma Rep_insert (t : CourseBST) (m : gmap string Course) (c : Course) :
  Rep t m -> Rep (BST.insertOrAssign t c) (assign m c).
Proof.
  intros (Ho & Hf & Hc). unfold BST.insertOrAssign, assign.
  pose proof (insert_ordered (root_ t) c (count_ t) Ho) as Ho'.
  pose proof (find_insert (root_ t) c (count_ t)) as Hf'.
  pose proof (insert_count (root_ t) c (count_ t)) as Hc'.
  destruct (BST.insertOrAssignImpl (root_ t) c (count_ t)) as [r k].
  simpl in *. split; [assumption|split]; simpl.
  - intros q. unfold BST.find. simpl. rewrite Hf', lookup_insert.
    unfold BST.find in Hf.
    destruct (decide (q = number c)) as [->|Hne].
    + now rewrite decide_True.
    + rewrite decide_False by congruence. apply Hf.
  - rewrite Hc'. unfold BST.find in Hf. rewrite Hf, Hc.
    destruct (m !! number c) as [d|] eqn:E.
    + rewrite map_size_insert_Some; [reflexivity|]. now exists d.
    + rewrite map_size_insert_None by assumption.
      apply size_t_inc_of_nat.
Qed.

Lemma courses_snoc (done : list string) (line : string) :
  courses (done ++ [line]) =
  courses done ++ match rowCourse line with Some c => [c] | None => [] end.
Proof. unfold courses. rewrite omap_app. simpl. now destruct (rowCourse line). Qed.

Lemma LoopInv_start (p : CoursePlanner) : LoopInv [] (Planner.loadStart p).
Proof.
  split; [apply Rep_clear|]. split; [|split; reflexivity].
  unfold courseMap. simpl. now rewrite fmap_empty.
Qed.

Lemma LoopInv_step (done : list string) (st : LoadState) (line : string) :
  LoopInv done st -> LoopInv (done ++ [line]) (Planner.loadLine st line).
Proof.
  intros (Hr & Hi & Hl & Hn). unfold LoopInv.
  assert (length (done ++ [line]) = S (length done)) as ->
    by (rewrite length_app; simpl; lia).
  rewrite courses_snoc.
  destruct (row_cases line) as [Hb|[Hs|[c Hc]]].
  - rewrite (loadLine_blank _ _ Hb), (rowCourse_blank _ Hb). simpl.
    rewrite app_nil_r, Hn, size_t_inc_of_nat.
    split; [assumption|split; [assumption|split; [assumption|reflexivity]]].
  - rewrite (loadLine_short _ _ Hs), (rowCourse_short _ Hs). simpl.
    rewrite app_nil_r, Hn, size_t_inc_of_nat.
    split; [assumption|split; [assumption|split; [assumption|reflexivity]]].
  - rewrite (loadLine_valid _ _ _ Hc), Hc. simpl.
    assert (length (courses done ++ [c]) = S (length (courses done))) as ->
      by (rewrite length_app; simpl; lia).
    rewrite courseMap_snoc.
    rewrite Hn, Hl, !size_t_inc_of_nat, Hi, fmap_insert.
    split; [now apply Rep_insert|]. split; [reflexivity|]. split; reflexivity.
Qed.

Lemma loadLoop_snoc (done : list string) (line : string) (st : LoadState) :
  Planner.loadLoop (done ++ [line]) st =
  Planner.loadLine (Planner.loadLoop done st) line.
Proof. unfold Planner.loadLoop. now rewrite fold_left_app. Qed.

Lemma LoopInv_loop (lines : list string) (p : CoursePlanner) :
  LoopInv lines (Planner.loadLoop lines (Planner.loadStart p)).
Proof.
  induction lines as [|line done IH] using rev_ind.
  - apply LoopInv_start.
  - rewrite loadLoop_snoc. now apply LoopInv_step.
Qed.

End Loading.

(** ** What a load leaves in the planner *)

Section AfterLoad.

Variables (t : CourseBST) (m : gmap string Course).
Hypothesis HRep : Rep t m.

Lemma Rep_sorted : StronglySorted key_lt (BST.visited t).
Proof. rewrite visited_elems. apply ordered_sorted, HRep. Qed.

Lemma Rep_NoDup : NoDup (number <$> BST.visited t).
Proof. apply sorted_NoDup, Rep_sorted. Qed.

Lemma Rep_lookup_number (q : string) (c : Course) :
  m !! q = Some c -> number c = q.
Proof.
  destruct HRep as (_ & Hf & _). rewrite <- Hf. apply find_number.
Qed.

Lemma Rep_visited (c : Course) :
  c ∈ BST.visited t <-> m !! number c = Some c.
Proof.
  destruct HRep as (Ho & Hf & _). rewrite visited_elems, <- Hf.
  now apply find_elems.
Qed.

Lemma Rep_keys (k : string) :
  k ∈ number <$> BST.visited t <-> is_Some (m !! k).
Proof.
  rewrite list_elem_of_fmap. split.
  - intros (c & -> & Hc). apply Rep_visited in Hc. now exists c.
  - intros [c Hc]. pose proof (Rep_lookup_number _ _ Hc) as <-.
    exists c. split; [reflexivity|]. now apply Rep_visited.
Qed.

Lemma Rep_length : length (BST.visited t) = size m.
Proof.
  rewrite <- (length_fmap number), <- size_dom.
  rewrite <- (size_list_to_set (C := gset string)) by apply Rep_NoDup.
  f_equal. apply set_eq. intros k.
  rewrite elem_of_list_to_set, elem_of_dom. apply Rep_keys.
Qed.

End AfterLoad.

Section Listing.

Lemma filter_absent (vs : list Course) (k : string) :
  k ∉ number <$> vs -> filter (fun v => number v = k) vs = [].
Proof.
  induction vs as [|v vs IH]; intros Hk; [reflexivity|].
  rewrite fmap_cons, not_elem_of_cons in Hk. destruct Hk as [Hne Hk].
  rewrite filter_cons_False by congruence. now apply IH.
Qed.

(** A stored number occurs once among the visited courses. *)
Lemma filter_unique (vs : list Course) (c : Course) :
  NoDup (number <$> vs) -> c ∈ vs ->
  filter (fun v => number v = number c) vs = [c].
Proof.
  induction vs as [|v vs IH]; intros Hn Hin; [inversion Hin|].
  rewrite fmap_cons in Hn. apply NoDup_cons in Hn as [Hv Hn].
  apply elem_of_cons in Hin as [->|Hin].
  - rewrite filter_cons_True by reflexivity. f_equal.
    now apply filter_absent.
  - rewrite filter_cons_False; [now apply IH|].
    intros Heq. apply Hv. rewrite Heq. now apply list_elem_of_fmap_2.
Qed.

Lemma listVisitor_fold (cs : list Course) (out : list Out) (n : nat) :
  fold_left (fun s c => Planner.listVisitor c s) cs
    (out, Z.of_nat n mod 2 ^ 64) =
  (out ++ listingLines cs, Z.of_nat (n + length cs) mod 2 ^ 64).
Proof.
  revert out n. induction cs as [|c cs IH]; intros out n; simpl.
  - now rewrite app_nil_r, Nat.add_0_r.
  - unfold Planner.listVisitor at 2. simpl.
    rewrite size_t_inc_of_nat, IH. unfold listingLines. simpl.
    rewrite <- app_assoc. simpl. do 2 f_equal. lia.
Qed.

(** The text [printCourseList] writes once data is loaded. *)
Lemma printCourseList_loaded (p : CoursePlanner) :
  loaded_ p = true ->
  Planner.printCourseList p =
  [OutStr (LF +:+ "ABCU Computer Science Course List (sorted)" +:+ LF);
   OutStr Planner.rule]
  ++ listingLines (BST.visited (tree_ p))
  ++ [OutStr Planner.rule; OutStr "Total: ";
      OutNum (Z.of_nat (length (BST.visited (tree_ p))) mod 2 ^ 64);
      OutStr (" course(s)" +:+ LF +:+ LF)].
Proof.
  intros Hl. unfold Planner.printCourseList, BST.inOrder. rewrite Hl. simpl.
  rewrite inOrderImpl_elems, visited_elems.
  change 0 with (Z.of_nat 0 mod 2 ^ 64).
  now rewrite listVisitor_fold.
Qed.

(** The state after a call that could open its file. *)
Lemma load_opened (lines : list string) (filename err : string)
    (p : CoursePlanner) :
  let r := Planner.loadFromFile (Some lines) filename err p in
  Rep (tree_ (planner r)) (courseMap (courses lines)) /\
  index_ (planner r) = title <$> courseMap (courses lines) /\
  ret r = negb (Z.of_nat (length (courses lines)) mod 2 ^ 64 =? 0) /\
  loaded_ (planner r) = ret r || loaded_ p.
Proof.
  destruct (LoopInv_loop lines p) as (Hr & Hi & Hl & _). simpl.
  rewrite <- Hl.
  destruct (loaded (Planner.loadLoop lines (Planner.loadStart p)) =? 0);
    simpl; auto.
Qed.

Lemma courses_elem (lines : list string) (c : Course) :
  c ∈ courses lines <-> exists line, line ∈ lines /\ rowCourse line = Some c.
Proof. unfold courses. apply list_elem_of_omap. Qed.

(** The numbers the map holds are those of the course rows. *)
Lemma courseMap_is_Some (cs : list Course) (k : string) :
  is_Some (courseMap cs !! k) <-> k ∈ number <$> cs.
Proof.
  rewrite <- elem_of_dom, courseMap_dom. apply elem_of_list_to_set.
Qed.

End Listing.

(** * The stated properties *)

(** C1. After a successful load the full listing visits the stored courses
    in strictly ascending order of their normalized numbers, no two visited
    courses share a number, every stored course (one that [find] returns;
    their numbers are those of the course rows of the file) is visited
    exactly once, and [printCourseList] prints one line per visited course,
    in that order. *)
Theorem listing_ascending_once (lines : list string) (filename err : string)
    (p : CoursePlanner) (r : LoadResult) :
  r = Planner.loadFromFile (Some lines) filename err p ->
  ret r = true ->
  StronglySorted key_lt (BST.visited (tree_ (planner r))) /\
  NoDup (number <$> BST.visited (tree_ (planner r))) /\
  (forall k c, BST.find (tree_ (planner r)) k = Some c <->
               filter (fun v => number v = k)
                 (BST.visited (tree_ (planner r))) = [c]) /\
  (forall k, k ∈ number <$> BST.visited (tree_ (planner r)) <->
             exists line c, line ∈ lines /\ rowCourse line = Some c /\
                            number c = k) /\
  Planner.printCourseList (planner r) =
  [OutStr (LF +:+ "ABCU Computer Science Course List (sorted)" +:+ LF);
   OutStr Planner.rule]
  ++ listingLines (BST.visited (tree_ (planner r)))
  ++ [OutStr Planner.rule; OutStr "Total: ";
      OutNum (Z.of_nat (length (BST.visited (tree_ (planner r)))) mod 2 ^ 64);
      OutStr (" course(s)" +:+ LF +:+ LF)].
Proof.
  intros -> Hret.
  destruct (load_opened lines filename err p) as (Hr & Hi & _ & Hl).
  rewrite Hret in Hl. simpl in Hl.
  set (r := Planner.loadFromFile (Some lines) filename err p) in *.
  pose proof (Rep_NoDup _ _ Hr) as Hnd.
  split; [exact (Rep_sorted _ _ Hr)|]. split; [exact Hnd|].
  split; [|split].
  - intros k c. destruct Hr as (Ho & Hf & Hc). rewrite Hf.
    pose proof (conj Ho (conj Hf Hc) : Rep _ _) as Hr. split.
    + intros Hk. pose proof (Rep_lookup_number _ _ Hr _ _ Hk) as <-.
      apply filter_unique; [exact Hnd|]. now apply (Rep_visited _ _ Hr).
    + intros Hk.
      assert (c ∈ filter (fun v => number v = k)
                    (BST.visited (tree_ (planner r))))
        as Hin by (rewrite Hk; constructor).
      apply list_elem_of_filter in Hin as [<- Hin].
      now apply (Rep_visited _ _ Hr).
  - intros k. rewrite (Rep_keys _ _ Hr), courseMap_is_Some, list_elem_of_fmap.
    split.
    + intros (c & -> & Hc). apply courses_elem in Hc as (line & Hin & Hc).
      eauto.
    + intros (line & c & Hin & Hc & <-). exists c. split; [reflexivity|].
      apply courses_elem. eauto.
  - now apply printCourseList_loaded.
Qed.

Lemma listing_ascending_once_witness :
  ret ex1 = true /\
  StronglySorted key_lt (BST.visited (tree_ (planner ex1))) /\
  NoDup (number <$> BST.visited (tree_ (planner ex1))).
Proof.
  split; [reflexivity|].
  pose proof (listing_ascending_once ex1_lines "courses.csv" EmptyString
                Planner.init ex1 eq_refl eq_refl) as (H1 & H2 & _).
  split; [exact H1|exact H2].
Defined.

(** ** Failed loads *)

Section FailedLoad.

Lemma elems_nil (n : NodePtr) : elems n = [] -> n = nullptr.
Proof.
  destruct n as [|nc l r]; [reflexivity|]. simpl. intros H.
  now apply app_nil in H as [_ H].
Qed.

Lemma Rep_empty (t : CourseBST) : Rep t ∅ -> t = BST.empty.
Proof.
  intros Hr. pose proof (Rep_length _ _ Hr) as Hlen.
  rewrite map_size_empty, visited_elems in Hlen.
  apply nil_length_inv, elems_nil in Hlen.
  destruct Hr as (_ & _ & Hc). rewrite map_size_empty in Hc.
  destruct t as [root cnt]. simpl in *. subst. reflexivity.
Qed.

Lemma courses_length (lines : list string) :
  (length (courses lines) <= length lines)%nat.
Proof.
  induction lines as [|line lines IH]; simpl; [lia|].
  unfold courses in *. simpl. destruct (rowCourse line); simpl; lia.
Qed.

(** The state a load leaves when the file has no course row. *)
Lemma load_no_course (lines : list string) (filename err : string)
    (p : CoursePlanner) :
  courses lines = [] ->
  Planner.loadFromFile (Some lines) filename err p =
  {| ret := false; outError := Planner.err_no_records;
     planner := {| tree_ := BST.empty; index_ := ∅; loaded_ := loaded_ p;
                   lastFilename_ := lastFilename_ p |};
     load_cout := [];
     load_cerr := ls_cerr (Planner.loadLoop lines (Planner.loadStart p)) |}.
Proof.
  intros Hc. destruct (LoopInv_loop lines p) as (Hr & Hi & Hl & _).
  rewrite Hc in Hr, Hi, Hl.
  change (courseMap []) with (∅ : gmap string Course) in Hr, Hi.
  rewrite fmap_empty in Hi. apply Rep_empty in Hr.
  unfold Planner.loadFromFile. now rewrite Hl, Hr, Hi.
Qed.

(** A load that read fewer than 2^64 lines and failed had no course row. *)
Lemma load_failed_no_course (lines : list string) (filename err : string)
    (p : CoursePlanner) :
  Z.of_nat (length lines) < 2 ^ 64 ->
  ret (Planner.loadFromFile (Some lines) filename err p) = false ->
  courses lines = [].
Proof.
  intros Hlen Hret.
  destruct (load_opened lines filename err p) as (_ & _ & Hr & _).
  rewrite Hret in Hr. pose proof (courses_length lines) as Hle.
  rewrite Z.mod_small in Hr by lia.
  destruct (courses lines); [reflexivity|]. simpl in Hr. discriminate.
Qed.

End FailedLoad.

(** C2, as stated, fails: after the first file of the design document is
    loaded, a load of a file that cannot be opened fails and leaves the
    three courses in the store and their titles in the index. *)
Lemma unopened_file_keeps_store :
  ret (Planner.loadFromFile None "missing.csv" EmptyString (planner ex1))
  = false /\
  planner (Planner.loadFromFile None "missing.csv" EmptyString (planner ex1))
  = planner ex1 /\
  BST.size (tree_ (planner ex1)) = 3 /\
  number <$> BST.visited (tree_ (planner ex1))
  = ["CSCI100"; "CSCI200"; "MATH201"] /\
  index_ (planner ex1) !! "CSCI200" = Some "Data Structures".
Proof. repeat split; vm_compute; reflexivity. Qed.

(** C2, amended. A load that cannot open its source fails before the reset
    and leaves the planner, so the store and the index, as they were. A
    load that opens its source clears both before it reads a row; when no
    row gives a course it fails with both left empty, whatever was loaded
    before, and a failing load of fewer than 2^64 rows is such a load. *)
Theorem failed_load_clears_once_opened (filename err : string)
    (p : CoursePlanner) :
  (forall r, r = Planner.loadFromFile None filename err p ->
     ret r = false /\ outError r = Planner.err_open filename /\
     planner r = p) /\
  (forall lines r, r = Planner.loadFromFile (Some lines) filename err p ->
     courses lines = [] ->
     ret r = false /\ outError r = Planner.err_no_records /\
     tree_ (planner r) = BST.empty /\
     BST.visited (tree_ (planner r)) = [] /\
     index_ (planner r) = ∅) /\
  (forall lines r, r = Planner.loadFromFile (Some lines) filename err p ->
     Z.of_nat (length lines) < 2 ^ 64 -> ret r = false ->
     courses lines = []).
Proof.
  split; [|split].
  - intros r ->. simpl. auto.
  - intros lines r -> Hc. rewrite (load_no_course _ _ _ _ Hc). simpl. auto.
  - intros lines r -> Hlen Hret. eapply load_failed_no_course; eassumption.
Qed.

Lemma failed_load_clears_once_opened_witness :
  planner (Planner.loadFromFile None "missing.csv" EmptyString (planner ex1))
  = planner ex1 /\
  courses ["X1"] = [] /\
  index_ (planner (Planner.loadFromFile (Some ["X1"]) "one.csv" EmptyString
                     (planner ex1))) = ∅.
Proof.
  split; [|split; [reflexivity|]].
  - exact (proj2 (proj2 (proj1 (failed_load_clears_once_opened
             "missing.csv" EmptyString (planner ex1)) _ eq_refl))).
  - exact (proj2 (proj2 (proj2 (proj2 (proj1 (proj2
             (failed_load_clears_once_opened "one.csv" EmptyString
                (planner ex1))) ["X1"] _ eq_refl eq_refl))))).
Defined.




(** ** Rows with the same number *)

Section Duplicates.

Lemma courses_app (l1 l2 : list string) :
  courses (l1 ++ l2) = courses l1 ++ courses l2.
Proof. unfold courses. apply omap_app. Qed.

Lemma courses_cons_valid (line : string) (c : Course) (l : list string) :
  rowCourse line = Some c -> courses (line :: l) = c :: courses l.
Proof. unfold courses. simpl. now intros ->. Qed.

Lemma courses_cons_none (line : string) (l : list string) :
  rowCourse line = None -> courses (line :: l) = courses l.
Proof. unfold courses. simpl. now intros ->. Qed.

Lemma courses_all_valid (lines : list string) :
  Forall (fun line => is_Some (rowCourse line)) lines ->
  length (courses lines) = length lines.
Proof.
  induction 1 as [|line lines [c Hc] _ IH]; [reflexivity|].
  rewrite (courses_cons_valid _ _ _ Hc). simpl. now rewrite IH.
Qed.

End Duplicates.

(** C4. When two rows of one load carry the same normalized number and the
    later of them is the last row with that number, the course stored at
    that number after the load has the title and the prerequisites of the
    later row, its number is the one both rows carry, and the listing has
    exactly one entry with that number; the index holds the later title. *)
Theorem later_row_wins (l1 l2 l3 : list string) (row1 row2 : string)
    (c1 c2 : Course) (filename err : string) (p : CoursePlanner)
    (r : LoadResult) :
  r = Planner.loadFromFile (Some (l1 ++ row1 :: l2 ++ row2 :: l3))
        filename err p ->
  rowCourse row1 = Some c1 -> rowCourse row2 = Some c2 ->
  number c1 = number c2 ->
  (forall row c, row ∈ l3 -> rowCourse row = Some c ->
                 number c <> number c2) ->
  exists c,
    BST.find (tree_ (planner r)) (number c1) = Some c /\
    number c = number c1 /\ title c = title c2 /\
    prereqs c = prereqs c2 /\
    filter (fun v => number v = number c1)
      (BST.visited (tree_ (planner r))) = [c] /\
    index_ (planner r) !! number c1 = Some (title c2).
Proof.
  intros -> H1 H2 Heq Hlast.
  destruct (load_opened (l1 ++ row1 :: l2 ++ row2 :: l3) filename err p)
    as (Hr & Hi & _).
  set (r := Planner.loadFromFile _ filename err p) in *.
  assert (courseMap (courses (l1 ++ row1 :: l2 ++ row2 :: l3))
            !! number c2 = Some c2) as Hm.
  { replace (l1 ++ row1 :: l2 ++ row2 :: l3)
      with ((l1 ++ row1 :: l2) ++ row2 :: l3)
      by (rewrite <- app_assoc; reflexivity).
    rewrite courses_app, (courses_cons_valid _ _ _ H2).
    apply courseMap_last. intros Hin.
    apply list_elem_of_fmap in Hin as (c & Hc & Hin).
    apply courses_elem in Hin as (row & Hrow & Hrc).
    apply (Hlast row c Hrow Hrc). congruence. }
  exists c2. rewrite Heq.
  destruct Hr as (Ho & Hf & Hc).
  pose proof (conj Ho (conj Hf Hc) : Rep _ _) as Hr.
  split; [now rewrite Hf|]. repeat (split; [reflexivity|]). split.
  - apply filter_unique; [apply (Rep_NoDup _ _ Hr)|].
    now apply (Rep_visited _ _ Hr).
  - now rewrite Hi, lookup_fmap, Hm.
Qed.

Lemma later_row_wins_witness :
  exists c,
    BST.find
      (tree_ (planner (Planner.loadFromFile
         (Some ([] ++ "CSCI100,Intro" :: ["MATH1,Algebra"]
                ++ " csci100 , Introduction to CS ,math1" :: ["MATH2,Calculus"]))
         "dup.csv" EmptyString Planner.init))) "CSCI100" = Some c /\
    title c = "Introduction to CS" /\ prereqs c = ["MATH1"].
Proof.
  destruct (later_row_wins [] ["MATH1,Algebra"] ["MATH2,Calculus"]
              "CSCI100,Intro" " csci100 , Introduction to CS ,math1"
              (mkCourse "CSCI100" "Intro" [])
              (mkCourse "CSCI100" "Introduction to CS" ["MATH1"])
              "dup.csv" EmptyString Planner.init _ eq_refl eq_refl eq_refl
              eq_refl)
    as (c & H1 & _ & H2 & H3 & _).
  - intros row c Hin Hc. apply list_elem_of_singleton in Hin. subst row.
    vm_compute in Hc. injection Hc as <-. discriminate.
  - exists c. split; [exact H1|]. split; [exact H2|exact H3].
Defined.

(** C10. After a successful load the index and the store agree: the index
    holds a number exactly when the store holds a course with that number,
    and maps it to the title of that stored course; so a prerequisite whose
    number is a loaded course is printed with the title now stored. *)
Theorem index_agrees_with_store (lines : list string) (filename err : string)
    (p : CoursePlanner) (r : LoadResult) :
  r = Planner.loadFromFile (Some lines) filename err p ->
  ret r = true ->
  (forall k, index_ (planner r) !! k
             = title <$> BST.find (tree_ (planner r)) k) /\
  (forall k, is_Some (index_ (planner r) !! k) <->
             exists c, c ∈ BST.visited (tree_ (planner r)) /\ number c = k) /\
  (forall q d, BST.find (tree_ (planner r)) q = Some d ->
     Planner.prereqLine (index_ (planner r)) q =
     [OutStr "  - "; OutStr q; OutStr ": "; OutStr (title d); OutStr LF]).
Proof.
  intros -> _.
  destruct (load_opened lines filename err p) as (Hr & Hi & _).
  set (r := Planner.loadFromFile _ filename err p) in *.
  assert (forall k, index_ (planner r) !! k
                    = title <$> BST.find (tree_ (planner r)) k) as Hagree.
  { intros k. destruct Hr as (_ & Hf & _). now rewrite Hi, lookup_fmap, Hf. }
  split; [exact Hagree|]. split.
  - intros k. rewrite Hi, lookup_fmap, fmap_is_Some, <- (Rep_keys _ _ Hr).
    rewrite list_elem_of_fmap. split; intros (c & H1 & H2); eauto.
  - intros q d Hq. unfold Planner.prereqLine. now rewrite Hagree, Hq.
Qed.

Lemma index_agrees_with_store_witness :
  ret ex1 = true /\
  forall k, index_ (planner ex1) !! k
            = title <$> BST.find (tree_ (planner ex1)) k.
Proof.
  split; [reflexivity|].
  exact (proj1 (index_agrees_with_store ex1_lines "courses.csv" EmptyString
                  Planner.init ex1 eq_refl eq_refl)).
Defined.

(** C9. A load of N well-formed rows, N below 2^64, leaves [size() = N]
    when the normalized numbers of the rows are pairwise distinct and
    [size() < N] when two rows share one. *)
Theorem size_counts_distinct_numbers (lines : list string)
    (filename err : string) (p : CoursePlanner) (r : LoadResult) :
  r = Planner.loadFromFile (Some lines) filename err p ->
  Forall (fun line => is_Some (rowCourse line)) lines ->
  Z.of_nat (length lines) < 2 ^ 64 ->
  (NoDup (number <$> courses lines) ->
   BST.size (tree_ (planner r)) = Z.of_nat (length lines)) /\
  (~ NoDup (number <$> courses lines) ->
   BST.size (tree_ (planner r)) < Z.of_nat (length lines)).
Proof.
  intros -> Hall Hlen.
  destruct (load_opened lines filename err p) as ((_ & _ & Hc) & _).
  unfold BST.size. rewrite Hc, courseMap_size.
  pose proof (courses_all_valid _ Hall) as Hn.
  pose proof (size_list_to_set_le (number <$> courses lines)) as Hle.
  rewrite length_fmap, Hn in Hle.
  rewrite Z.mod_small by lia. split; intros Hd.
  - rewrite size_list_to_set by assumption. now rewrite length_fmap, Hn.
  - apply size_list_to_set_dup in Hd. rewrite length_fmap, Hn in Hd. lia.
Qed.

Lemma size_counts_distinct_numbers_witness :
  BST.size (tree_ (planner ex1)) = 3 /\
  BST.size (tree_ (planner (Planner.loadFromFile
     (Some ["CSCI100,Intro"; "MATH1,Algebra"; "csci100,Introduction to CS"])
     "dup.csv" EmptyString Planner.init))) < 3.
Proof.
  split.
  - apply (size_counts_distinct_numbers ex1_lines "courses.csv" EmptyString
             Planner.init ex1 eq_refl).
    + repeat constructor; vm_compute; eexists; reflexivity.
    + reflexivity.
    + apply (bool_decide_unpack _). vm_compute. exact I.
  - apply (size_counts_distinct_numbers
             ["CSCI100,Intro"; "MATH1,Algebra"; "csci100,Introduction to CS"]
             "dup.csv" EmptyString Planner.init _ eq_refl).
    + repeat constructor; vm_compute; eexists; reflexivity.
    + reflexivity.
    + intros Hd. vm_compute in Hd. inversion Hd as [|x l Hx Hl]; subst.
      apply Hx. apply list_elem_of_In. simpl. auto.
Defined.

(** ** Queries *)

Section Describe.

Lemma isspace_tolower (ch : ascii) :
  Str.isspace (Str.tolower ch) = Str.isspace ch.
Proof. destruct ch as [[] [] [] [] [] [] [] []]; reflexivity. Qed.

(** Two queries that differ in letter case only have one normal form. *)
Lemma normalize_case (raw raw' : string) :
  toUpperInPlace raw = toUpperInPlace raw' -> normalize raw = normalize raw'.
Proof.
  intros H. unfold normalize. now rewrite <- !trimCopy_upper, H.
Qed.

Lemma normalize_upper (raw : string) :
  normalize (toUpperInPlace raw) = normalize raw.
Proof. apply normalize_case, upper_upper. Qed.

Lemma normalize_lower (raw : string) :
  normalize (Str.map Str.tolower raw) = normalize raw.
Proof. apply normalize_case, upper_lower. Qed.


Lemma skip_back_idem (s : string) :
  Str.skip_back (Str.skip_back s) = Str.skip_back s.
Proof.
  induction s as [|ch s IH]; simpl; [reflexivity|].
  destruct (Str.skip_back s) as [|b rest] eqn:E.
  - destruct (Str.isspace ch) eqn:Hs; simpl; [reflexivity|now rewrite Hs].
  - change (Str.skip_back (String ch (String b rest))) with
      (match Str.skip_back (String b rest) with
       | EmptyString =>
           if Str.isspace ch then EmptyString else String ch EmptyString
       | x => String ch x
       end).
    now rewrite IH.
Qed.

Lemma skip_front_fixed (s : string) :
  Str.skip_front s = s -> Str.skip_front (Str.skip_back s) = Str.skip_back s.
Proof.
  destruct s as [|ch s]; simpl; [reflexivity|].
  destruct (Str.isspace ch) eqn:Hs.
  - intros H. exfalso.
    assert (forall t, (String.length (Str.skip_front t) <= String.length t)%nat)
      as Hle.
    { induction t as [|c t IHt]; simpl; [lia|].
      destruct (Str.isspace c); simpl; lia. }
    specialize (Hle s). rewrite H in Hle. simpl in Hle. lia.
  - intros _. destruct (Str.skip_back s); simpl; now rewrite Hs.
Qed.

Lemma skip_front_idem (s : string) :
  Str.skip_front (Str.skip_front s) = Str.skip_front s.
Proof.
  induction s as [|ch s IH]; simpl; [reflexivity|].
  destruct (Str.isspace ch) eqn:Hs; [exact IH|]. simpl. now rewrite Hs.
Qed.

(** A trimmed string has nothing left to trim. *)
Lemma trimCopy_idem (s : string) : trimCopy (trimCopy s) = trimCopy s.
Proof.
  unfold trimCopy.
  rewrite (skip_front_fixed _ (skip_front_idem s)). apply skip_back_idem.
Qed.

Lemma prereqLines_bind (index : gmap string string) (ps : list string)
    (out : list Out) :
  Planner.prereqLines index ps out = out ++ (ps ≫= Planner.prereqLine index).
Proof.
  revert out. induction ps as [|q ps IH]; intros out; simpl.
  - now rewrite app_nil_r.
  - now rewrite IH, <- app_assoc.
Qed.

End Describe.

Section StoredNumbers.

Lemma splitCSV_loop_trimmed (fuel : nat) (iss part : string) :
  part ∈ splitCSV_loop fuel iss -> trimCopy part = part.
Proof.
  revert iss. induction fuel as [|fuel IH]; intros iss; simpl.
  - intros H. inversion H.
  - destruct (getline_comma iss) as [[cur rest]|]; [|intros H; inversion H].
    intros H. apply elem_of_cons in H as [->|H]; [apply trimCopy_idem|].
    now apply (IH rest).
Qed.


End StoredNumbers.




(** C6. For a stored course reached by a query, [printCourseInfo] prints the
    heading of the course and then its prerequisites in stored order, one
    line each: the number with its title when the index has the number, the
    number with the title-not-found marker when it has not. Whatever the
    index holds the answer is this report, never one of the failure
    messages; a course without prerequisites gets the line saying it has
    none, which no course with prerequisites gets. *)
Theorem describe_reports_each_prereq (p : CoursePlanner) (raw : string)
    (c : Course) :
  Planner.isLoaded p = true ->
  normalize raw <> EmptyString ->
  BST.find (tree_ p) (normalize raw) = Some c ->
  Planner.printCourseInfo p raw =
    [OutStr LF; OutStr (number c); OutStr ": "; OutStr (title c); OutStr LF]
    ++ match prereqs c with
       | [] => [OutStr ("Prerequisites: None" +:+ LF +:+ LF)]
       | _ :: _ =>
           [OutStr ("Prerequisites:" +:+ LF)]
           ++ (prereqs c ≫= Planner.prereqLine (index_ p))
           ++ [OutStr LF]
       end /\
  (forall q t, index_ p !! q = Some t ->
     Planner.prereqLine (index_ p) q =
     [OutStr "  - "; OutStr q; OutStr ": "; OutStr t; OutStr LF]) /\
  (forall q, index_ p !! q = None ->
     Planner.prereqLine (index_ p) q =
     [OutStr "  - "; OutStr q;
      OutStr (" (title not found in file)" +:+ LF)]) /\
  (prereqs c <> [] ->
     Planner.printCourseInfo p raw <>
     [OutStr LF; OutStr (number c); OutStr ": "; OutStr (title c); OutStr LF]
     ++ Planner.msg_prereq_none).
Proof.
  unfold Planner.isLoaded. intros Hl Hne Hc.
  assert (Planner.printCourseInfo p raw =
    [OutStr LF; OutStr (number c); OutStr ": "; OutStr (title c); OutStr LF]
    ++ match prereqs c with
       | [] => [OutStr ("Prerequisites: None" +:+ LF +:+ LF)]
       | _ :: _ =>
           [OutStr ("Prerequisites:" +:+ LF)]
           ++ (prereqs c ≫= Planner.prereqLine (index_ p))
           ++ [OutStr LF]
       end) as Hout.
  { unfold Planner.printCourseInfo. fold (normalize raw). rewrite Hl, Hc.
    simpl. destruct (normalize raw) as [|a k]; [contradiction|]. simpl.
    destruct (prereqs c) as [|q ps] eqn:E; [reflexivity|].
    rewrite bool_decide_eq_false_2 by discriminate.
    rewrite prereqLines_bind, <- !app_assoc. reflexivity. }
  split; [exact Hout|]. split; [|split].
  - intros q t Hq. unfold Planner.prereqLine. now rewrite Hq.
  - intros q Hq. unfold Planner.prereqLine. now rewrite Hq.
  - intros Hps. rewrite Hout. destruct (prereqs c); [contradiction|].
    intros H. apply app_inv_head in H. discriminate.
Qed.

Lemma describe_reports_each_prereq_witness :
  Planner.printCourseInfo (planner ex1) "math201" =
  [OutStr LF; OutStr "MATH201"; OutStr ": "; OutStr "Discrete Mathematics";
   OutStr LF; OutStr ("Prerequisites:" +:+ LF);
   OutStr "  - "; OutStr "MATH101";
   OutStr (" (title not found in file)" +:+ LF);
   OutStr "  - "; OutStr "CSCI100"; OutStr ": ";
   OutStr "Introduction to Computer Science"; OutStr LF; OutStr LF].
Proof.
  destruct (describe_reports_each_prereq (planner ex1) "math201"
              (mkCourse "MATH201" "Discrete Mathematics"
                 ["MATH101"; "CSCI100"])) as (H & _).
  - reflexivity.
  - vm_compute. discriminate.
  - reflexivity.
  - rewrite H. reflexivity.
Defined.

(** ** Sessions *)

Section Sessions.



End Sessions.



(** ** Rows that give no course *)

Section SkippedRows.

(** The store, the index and the count of loaded rows depend on the
    course rows alone. *)
Lemma loadLoop_store (lines : list string) (st : LoadState) :
  ls_tree (Planner.loadLoop lines st)
  = fold_left BST.insertOrAssign (courses lines) (ls_tree st) /\
  ls_index (Planner.loadLoop lines st)
  = fold_left (fun m c => <[number c := title c]> m) (courses lines)
      (ls_index st) /\
  loaded (Planner.loadLoop lines st)
  = fold_left (fun n _ => size_t_inc n) (courses lines) (loaded st).
Proof.
  revert st. induction lines as [|line lines IH]; intros st; [easy|].
  change (Planner.loadLoop (line :: lines) st)
    with (Planner.loadLoop lines (Planner.loadLine st line)).
  destruct (IH (Planner.loadLine st line)) as (-> & -> & ->).
  destruct (row_cases line) as [Hb|[Hs|[c Hc]]].
  - rewrite (loadLine_blank _ _ Hb),
      (courses_cons_none _ _ (rowCourse_blank _ Hb)). easy.
  - rewrite (loadLine_short _ _ Hs),
      (courses_cons_none _ _ (rowCourse_short _ Hs)). easy.
  - rewrite (loadLine_valid _ _ _ Hc), (courses_cons_valid _ _ _ Hc). easy.
Qed.

Lemma load_same_courses (lines lines' : list string) (filename err : string)
    (p : CoursePlanner) :
  courses lines = courses lines' ->
  ret (Planner.loadFromFile (Some lines) filename err p)
  = ret (Planner.loadFromFile (Some lines') filename err p) /\
  planner (Planner.loadFromFile (Some lines) filename err p)
  = planner (Planner.loadFromFile (Some lines') filename err p).
Proof.
  intros Hc. unfold Planner.loadFromFile.
  destruct (loadLoop_store lines (Planner.loadStart p)) as (Ht & Hi & Hl).
  destruct (loadLoop_store lines' (Planner.loadStart p))
    as (Ht' & Hi' & Hl').
  rewrite <- Hc in Ht', Hi', Hl'. rewrite <- Ht, <- Hi, <- Hl in *.
  rewrite Hl'.
  destruct (loaded (Planner.loadLoop lines (Planner.loadStart p)) =? 0);
    simpl; now rewrite Ht', Hi'.
Qed.

(** [std::cerr] only grows during the loop. *)
Lemma loadLoop_cerr (lines : list string) (st : LoadState) :
  exists post, ls_cerr (Planner.loadLoop lines st) = ls_cerr st ++ post.
Proof.
  revert st. induction lines as [|line lines IH]; intros st.
  - exists []. simpl. now rewrite app_nil_r.
  - change (Planner.loadLoop (line :: lines) st)
      with (Planner.loadLoop lines (Planner.loadLine st line)).
    destruct (IH (Planner.loadLine st line)) as [post ->].
    destruct (row_cases line) as [Hb|[Hs|[c Hc]]].
    + rewrite (loadLine_blank _ _ Hb). simpl. eauto.
    + rewrite (loadLine_short _ _ Hs). simpl. rewrite <- app_assoc. eauto.
    + rewrite (loadLine_valid _ _ _ Hc). simpl. eauto.
Qed.

Lemma load_cerr_loop (lines : list string) (filename err : string)
    (p : CoursePlanner) :
  load_cerr (Planner.loadFromFile (Some lines) filename err p)
  = ls_cerr (Planner.loadLoop lines (Planner.loadStart p)).
Proof.
  unfold Planner.loadFromFile.
  now destruct (loaded (Planner.loadLoop lines (Planner.loadStart p)) =? 0).
Qed.

Lemma loadLoop_app (l1 l2 : list string) (st : LoadState) :
  Planner.loadLoop (l1 ++ l2) st
  = Planner.loadLoop l2 (Planner.loadLoop l1 st).
Proof. unfold Planner.loadLoop. apply fold_left_app. Qed.

End SkippedRows.

(** C8. During a load, a row that is not blank and has fewer than two
    fields changes neither the store, the index nor the count of loaded
    rows: it adds one to the count of skipped rows and writes to
    [std::cerr] the warning that names its line, the text "Warning (line ",
    the 1-based number of the line and the rest of the sentence. A row that is blank after trimming
    changes the line number only: no warning, not counted as skipped. In
    both cases the loop goes on with the next row, and the load returns
    and leaves the planner as if the row were not in the file. *)
Theorem short_rows_skipped_blank_rows_ignored (done rest : list string)
    (line : string) (filename err : string) (p : CoursePlanner)
    (st : LoadState) :
  st = Planner.loadLoop done (Planner.loadStart p) ->
  (shortRow line ->
   Planner.loadLine st line =
   {| ls_tree := ls_tree st; ls_index := ls_index st;
      lineNum := Z.of_nat (S (length done)) mod 2 ^ 64;
      loaded := loaded st; skipped := size_t_inc (skipped st);
      ls_cerr := ls_cerr st
                 ++ [OutStr "Warning (line ";
                     OutNum (Z.of_nat (S (length done)) mod 2 ^ 64);
                     OutStr ("): expected at least course number and title. Skipping line."
                             +:+ LF)]
   |} /\
   exists post,
     load_cerr (Planner.loadFromFile (Some (done ++ line :: rest))
                  filename err p)
     = ls_cerr st
       ++ [OutStr "Warning (line ";
           OutNum (Z.of_nat (S (length done)) mod 2 ^ 64);
           OutStr ("): expected at least course number and title. Skipping line."
                   +:+ LF)]
       ++ post) /\
  (blankRow line ->
   Planner.loadLine st line =
   {| ls_tree := ls_tree st; ls_index := ls_index st;
      lineNum := Z.of_nat (S (length done)) mod 2 ^ 64;
      loaded := loaded st; skipped := skipped st; ls_cerr := ls_cerr st |}) /\
  Planner.loadLoop (done ++ line :: rest) (Planner.loadStart p)
  = Planner.loadLoop rest (Planner.loadLine st line) /\
  (shortRow line \/ blankRow line ->
   ret (Planner.loadFromFile (Some (done ++ line :: rest)) filename err p)
   = ret (Planner.loadFromFile (Some (done ++ rest)) filename err p) /\
   planner (Planner.loadFromFile (Some (done ++ line :: rest)) filename err p)
   = planner (Planner.loadFromFile (Some (done ++ rest)) filename err p)).
Proof.
  intros ->.
  destruct (LoopInv_loop done p) as (_ & _ & _ & Hn).
  assert (Planner.loadLoop (done ++ line :: rest) (Planner.loadStart p)
          = Planner.loadLoop rest
              (Planner.loadLine (Planner.loadLoop done (Planner.loadStart p))
                 line)) as Hgo by (now rewrite loadLoop_app).
  split; [|split; [|split; [exact Hgo|]]].
  - intros Hs. rewrite (loadLine_short _ _ Hs), Hn, size_t_inc_of_nat.
    split; [reflexivity|].
    rewrite load_cerr_loop, Hgo.
    destruct (loadLoop_cerr rest
                (Planner.loadLine (Planner.loadLoop done (Planner.loadStart p))
                   line)) as [post ->].
    rewrite (loadLine_short _ _ Hs), Hn, size_t_inc_of_nat. simpl.
    exists post. now rewrite <- !app_assoc.
  - intros Hb. now rewrite (loadLine_blank _ _ Hb), Hn, size_t_inc_of_nat.
  - intros Hrow. apply load_same_courses.
    rewrite !courses_app. f_equal. apply courses_cons_none.
    destruct Hrow; [now apply rowCourse_short|now apply rowCourse_blank].
Qed.

Lemma short_rows_skipped_blank_rows_ignored_witness :
  shortRow "X1" /\
  exists post,
    load_cerr (Planner.loadFromFile
                 (Some (["CSCI100,Intro"; "  "] ++ "X1" :: ["MATH1,Algebra"]))
                 "rows.csv" EmptyString Planner.init)
    = ls_cerr (Planner.loadLoop ["CSCI100,Intro"; "  "]
                 (Planner.loadStart Planner.init))
      ++ [OutStr "Warning (line "; OutNum 3;
          OutStr ("): expected at least course number and title. Skipping line."
                  +:+ LF)]
      ++ post.
Proof.
  assert (shortRow "X1") as Hs.
  { split; [discriminate|]. vm_compute. lia. }
  split; [exact Hs|].
  exact (proj2 (proj1 (short_rows_skipped_blank_rows_ignored
                  ["CSCI100,Intro"; "  "] ["MATH1,Algebra"] "X1" "rows.csv"
                  EmptyString Planner.init _ eq_refl) Hs)).
Defined.


(** * Further properties of the code *)

(** ** String helpers *)

Section TrimFacts.

Lemma append_cons (ch : ascii) (a b : string) :
  String ch a +:+ b = String ch (a +:+ b).
Proof. reflexivity. Qed.

Lemma skip_front_split (s : string) :
  exists pre, s = pre +:+ Str.skip_front s /\ all_space pre = true.
Proof.
  induction s as [|ch s (pre & IH & Hpre)]; simpl.
  - now exists EmptyString.
  - destruct (Str.isspace ch) eqn:Hs.
    + exists (String ch pre). simpl. rewrite Hs, Hpre, append_cons.
      split; [f_equal; exact IH|reflexivity].
    + now exists EmptyString.
Qed.

Lemma skip_front_first (s : string) (ch : ascii) :
  first_char (Str.skip_front s) = Some ch -> Str.isspace ch = false.
Proof.
  induction s as [|a s IH]; simpl; [discriminate|].
  destruct (Str.isspace a) eqn:Hs; [exact IH|]. simpl. congruence.
Qed.

Lemma append_nil (a : string) : EmptyString +:+ a = a.
Proof. reflexivity. Qed.

Lemma skip_back_split (s : string) :
  exists post, s = Str.skip_back s +:+ post /\ all_space post = true.
Proof.
  induction s as [|ch s (post & IH & Hpost)]; simpl.
  - now exists EmptyString.
  - destruct (Str.skip_back s) as [|b t] eqn:E.
    + rewrite append_nil in IH. destruct (Str.isspace ch) eqn:Hs.
      * exists (String ch post). rewrite append_nil. simpl.
        rewrite Hs, Hpost. split; [f_equal; exact IH|reflexivity].
      * exists post. rewrite append_cons, append_nil.
        split; [f_equal; exact IH|assumption].
    + exists post. rewrite append_cons. split; [|assumption].
      f_equal. exact IH.
Qed.

Lemma skip_back_last (s : string) (ch : ascii) :
  last_char (Str.skip_back s) = Some ch -> Str.isspace ch = false.
Proof.
  induction s as [|a s IH]; simpl; [discriminate|].
  destruct (Str.skip_back s) as [|b t] eqn:E.
  - destruct (Str.isspace a) eqn:Hs; simpl; [discriminate|congruence].
  - exact IH.
Qed.

Lemma skip_back_first (s : string) (ch : ascii) :
  first_char (Str.skip_back s) = Some ch -> first_char s = Some ch.
Proof.
  destruct s as [|a s]; simpl; [discriminate|].
  destruct (Str.skip_back s); [destruct (Str.isspace a)|]; simpl; congruence.
Qed.

Lemma skip_front_all_space (s : string) :
  Str.skip_front s = EmptyString <-> all_space s = true.
Proof.
  induction s as [|ch s IH]; simpl; [easy|].
  destruct (Str.isspace ch); simpl; [exact IH|easy].
Qed.

Lemma skip_back_all_space (s : string) :
  Str.skip_back s = EmptyString <-> all_space s = true.
Proof.
  induction s as [|ch s IH]; simpl; [easy|].
  destruct (Str.skip_back s) as [|b t].
  - destruct (Str.isspace ch); simpl; [|easy].
    split; intros _; [now apply IH|reflexivity].
  - split; [discriminate|]. intros H. apply andb_true_iff in H as [_ H].
    apply IH in H. discriminate.
Qed.

Lemma append_assoc (a b c : string) : (a +:+ b) +:+ c = a +:+ (b +:+ c).
Proof.
  induction a as [|ch a IH]; [reflexivity|].
  rewrite !append_cons. now rewrite IH.
Qed.

End TrimFacts.

(** X1. [trimCopy] removes white space at the two ends and nothing else:
    the argument is a run of white space, the result, and a run of white
    space, and the result neither starts nor ends with white space. *)
Theorem trimCopy_strips_ends (s : string) :
  exists pre post,
    s = pre +:+ trimCopy s +:+ post /\
    all_space pre = true /\ all_space post = true /\
    (forall ch, first_char (trimCopy s) = Some ch -> Str.isspace ch = false) /\
    (forall ch, last_char (trimCopy s) = Some ch -> Str.isspace ch = false).
Proof.
  unfold trimCopy.
  destruct (skip_front_split s) as (pre & Hs & Hpre).
  destruct (skip_back_split (Str.skip_front s)) as (post & Ht & Hpost).
  exists pre, post. split; [|split; [exact Hpre|split; [exact Hpost|split]]].
  - now rewrite <- Ht.
  - intros ch H. apply skip_back_first in H. now apply skip_front_first in H.
  - apply skip_back_last.
Qed.

(** X2. [trimCopy] returns the empty string exactly for a string of white
    space only (the lines [loadFromFile] passes over), and trimming a
    trimmed string changes nothing. *)
Theorem trimCopy_empty_iff_blank (s : string) :
  (trimCopy s = EmptyString <-> all_space s = true) /\
  trimCopy (trimCopy s) = trimCopy s.
Proof.
  split; [|apply trimCopy_idem]. unfold trimCopy.
  rewrite skip_back_all_space. split.
  - intros H. apply skip_front_all_space in H.
    rewrite skip_front_idem in H. now apply skip_front_all_space.
  - intros H. apply skip_front_all_space in H. now rewrite H.
Qed.

Section UpperFacts.

Lemma toupper_not_lower (ch : ascii) : is_lower (Str.toupper ch) = false.
Proof. destruct ch as [[] [] [] [] [] [] [] []]; reflexivity. Qed.

Lemma toupper_fixed (ch : ascii) : is_lower ch = false -> Str.toupper ch = ch.
Proof.
  destruct ch as [[] [] [] [] [] [] [] []]; intros H; vm_compute in *;
    congruence.
Qed.

Lemma toupper_distance (ch : ascii) :
  is_lower ch = true ->
  N_of_ascii (Str.toupper ch) = (N_of_ascii ch - 32)%N.
Proof.
  destruct ch as [[] [] [] [] [] [] [] []]; intros H; vm_compute in *;
    congruence.
Qed.

End UpperFacts.

(** X3. [toUpperInPlace] keeps the length, leaves no lower-case letter,
    moves each lower-case letter 32 codes down and changes no other
    character; a string without lower-case letters is left as it is. *)
Theorem toUpperInPlace_letters_only (s : string) :
  String.length (toUpperInPlace s) = String.length s /\
  any_lower (toUpperInPlace s) = false /\
  (forall i ch, String.get i s = Some ch ->
     String.get i (toUpperInPlace s) = Some (Str.toupper ch) /\
     (is_lower ch = false -> Str.toupper ch = ch) /\
     (is_lower ch = true ->
      N_of_ascii (Str.toupper ch) = (N_of_ascii ch - 32)%N)) /\
  (any_lower s = false -> toUpperInPlace s = s).
Proof.
  unfold toUpperInPlace. split; [|split; [|split]].
  - induction s as [|ch s IH]; simpl; [reflexivity|now rewrite IH].
  - induction s as [|ch s IH]; simpl; [reflexivity|].
    now rewrite toupper_not_lower, IH.
  - intros i ch Hget. split; [|split;
      [apply toupper_fixed|apply toupper_distance]].
    revert i Hget. induction s as [|a s IH]; intros i Hget;
      [discriminate|].
    destruct i as [|i]; simpl in *; [congruence|now apply IH].
  - induction s as [|ch s IH]; simpl; [reflexivity|].
    intros H. apply orb_false_iff in H as [H1 H2].
    now rewrite toupper_fixed, IH.
Qed.

(** ** Splitting *)

Section SplitFacts.

Lemma has_comma_skip_front (s : string) :
  has_comma s = false -> has_comma (Str.skip_front s) = false.
Proof.
  induction s as [|ch s IH]; simpl; [easy|].
  intros H. apply orb_false_iff in H as [H1 H2].
  destruct (Str.isspace ch); [now apply IH|]. simpl. now rewrite H1, H2.
Qed.

Lemma has_comma_skip_back (s : string) :
  has_comma s = false -> has_comma (Str.skip_back s) = false.
Proof.
  induction s as [|ch s IH]; simpl; [easy|].
  intros H. apply orb_false_iff in H as [H1 H2]. specialize (IH H2).
  destruct (Str.skip_back s).
  - destruct (Str.isspace ch); simpl; [reflexivity|now rewrite H1].
  - simpl in *. now rewrite H1, IH.
Qed.

Lemma has_comma_trimCopy (s : string) :
  has_comma s = false -> has_comma (trimCopy s) = false.
Proof.
  intros H. unfold trimCopy. now apply has_comma_skip_back, has_comma_skip_front.
Qed.

Lemma getline_rest_no_comma (s : string) :
  has_comma (getline_rest s).1 = false.
Proof.
  induction s as [|ch s IH]; simpl; [reflexivity|].
  destruct (Ascii.eqb ch comma) eqn:E; [reflexivity|].
  destruct (getline_rest s) as [cur rest]. simpl in *. now rewrite E, IH.
Qed.

Lemma splitCSV_loop_no_comma (fuel : nat) (iss part : string) :
  part ∈ splitCSV_loop fuel iss -> has_comma part = false.
Proof.
  revert iss. induction fuel as [|fuel IH]; intros iss; simpl.
  - intros H. inversion H.
  - destruct iss as [|ch iss]; simpl; [intros H; inversion H|].
    pose proof (getline_rest_no_comma (String ch iss)) as Hc.
    simpl in Hc. destruct (Ascii.eqb ch comma).
    + intros H. apply elem_of_cons in H as [->|H]; [reflexivity|].
      now apply (IH iss).
    + destruct (getline_rest iss) as [cur rest]. simpl in Hc.
      intros H. apply elem_of_cons in H as [->|H].
      * now apply has_comma_trimCopy.
      * now apply (IH rest).
Qed.

Lemma getline_rest_field (f rest : string) :
  has_comma f = false ->
  getline_rest (f +:+ String comma rest) = (f, rest).
Proof.
  induction f as [|ch f IH]; intros H.
  - reflexivity.
  - simpl in H. apply orb_false_iff in H as [H1 H2].
    rewrite append_cons. simpl. now rewrite H1, (IH H2).
Qed.

Lemma getline_rest_whole (f : string) :
  has_comma f = false -> getline_rest f = (f, EmptyString).
Proof.
  induction f as [|ch f IH]; intros H; [reflexivity|].
  simpl in H. apply orb_false_iff in H as [H1 H2].
  simpl. now rewrite H1, (IH H2).
Qed.

Lemma splitCSV_step (s cur rest : string) :
  getline_comma s = Some (cur, rest) ->
  splitCSV s = trimCopy cur :: splitCSV rest.
Proof.
  intros H. pose proof (getline_comma_shorter _ _ _ H) as Hlen.
  unfold splitCSV at 1. destruct s as [|ch s]; [discriminate|].
  cbn [String.length splitCSV_loop]. rewrite H. f_equal.
  apply splitCSV_loop_fuel. simpl in Hlen. lia.
Qed.

Lemma getline_comma_field (f rest : string) :
  has_comma f = false ->
  getline_comma (f +:+ String comma rest) = Some (f, rest).
Proof.
  intros H. rewrite <- (getline_rest_field f rest H).
  now destruct f.
Qed.

Lemma joinCSV_cons (f g : string) (fs : list string) :
  joinCSV (f :: g :: fs) = f +:+ String comma (joinCSV (g :: fs)).
Proof. reflexivity. Qed.

End SplitFacts.

(** X4. Every part [splitCSV] returns is trimmed and holds no comma. *)
Theorem splitCSV_parts_clean (line part : string) :
  part ∈ splitCSV line ->
  trimCopy part = part /\ has_comma part = false /\
  (forall ch, first_char part = Some ch -> Str.isspace ch = false) /\
  (forall ch, last_char part = Some ch -> Str.isspace ch = false).
Proof.
  intros H. unfold splitCSV in H.
  pose proof (splitCSV_loop_trimmed _ _ _ H) as Ht.
  split; [exact Ht|]. split; [exact (splitCSV_loop_no_comma _ _ _ H)|].
  rewrite <- Ht. unfold trimCopy. split.
  - intros ch Hc. apply skip_back_first in Hc.
    now apply skip_front_first in Hc.
  - apply skip_back_last.
Qed.

Lemma splitCSV_parts_clean_witness :
  trimCopy "Data Structures" = "Data Structures" /\
  has_comma "Data Structures" = false.
Proof.
  destruct (splitCSV_parts_clean " CSCI200 ,  Data Structures , CSCI100"
              "Data Structures") as (H1 & H2 & _).
  - vm_compute. apply list_elem_of_In. simpl. auto.
  - split; [exact H1|exact H2].
Defined.

(** X5. Splitting undoes joining: for a non-empty list of fields without
    commas, [splitCSV] of the fields joined by commas gives the trimmed
    fields when the last field is not empty; with one more comma at the
    end it gives the trimmed fields whatever the last field is, so that a
    comma at the end of a line adds no part. *)
Theorem splitCSV_joinCSV (fields : list string) :
  fields <> [] ->
  Forall (fun f => has_comma f = false) fields ->
  (last fields <> Some EmptyString ->
   splitCSV (joinCSV fields) = trimCopy <$> fields) /\
  splitCSV (joinCSV fields +:+ String comma EmptyString)
  = trimCopy <$> fields.
Proof.
  intros Hne Hall. induction fields as [|f fields IH]; [contradiction|].
  inversion Hall as [|? ? Hf Hrest]; subst.
  destruct fields as [|g fs].
  - split.
    + intros Hlast. simpl in Hlast.
      destruct f as [|ch f]; [contradiction|].
      assert (getline_comma (String ch f) = Some (String ch f, EmptyString))
        as Hg by (unfold getline_comma; now rewrite getline_rest_whole).
      change (joinCSV [String ch f]) with (String ch f).
      now rewrite (splitCSV_step _ _ _ Hg).
    + change (joinCSV [f]) with f.
      now rewrite (splitCSV_step _ _ _ (getline_comma_field f _ Hf)).
  - destruct (IH ltac:(discriminate) Hrest) as [IH1 IH2].
    rewrite joinCSV_cons. split.
    + intros Hlast.
      rewrite (splitCSV_step _ _ _ (getline_comma_field f _ Hf)).
      rewrite fmap_cons. f_equal. apply IH1. exact Hlast.
    + rewrite append_assoc.
      change (String comma (joinCSV (g :: fs)) +:+ String comma EmptyString)
        with (String comma (joinCSV (g :: fs) +:+ String comma EmptyString)).
      rewrite (splitCSV_step _ _ _ (getline_comma_field f _ Hf)).
      rewrite fmap_cons. f_equal. exact IH2.
Qed.

Lemma splitCSV_joinCSV_witness :
  splitCSV (joinCSV ["MATH201"; " Discrete Mathematics "; "math101"])
  = ["MATH201"; "Discrete Mathematics"; "math101"] /\
  splitCSV (joinCSV ["X1"; EmptyString] +:+ String comma EmptyString)
  = ["X1"; EmptyString].
Proof.
  assert (["MATH201"; " Discrete Mathematics "; "math101"] <> []) as N1
    by discriminate.
  assert (["X1"; EmptyString] <> []) as N2 by discriminate.
  assert (Forall (fun f => has_comma f = false)
            ["MATH201"; " Discrete Mathematics "; "math101"]) as F1
    by (repeat constructor).
  assert (Forall (fun f => has_comma f = false) ["X1"; EmptyString]) as F2
    by (repeat constructor).
  assert (last ["MATH201"; " Discrete Mathematics "; "math101"]
          <> Some EmptyString) as L1 by discriminate.
  split.
  - exact (proj1 (splitCSV_joinCSV _ N1 F1) L1).
  - exact (proj2 (splitCSV_joinCSV _ N2 F2)).
Defined.

(** ** The tree, one operation at a time *)

(** X6. Insert then look up, on any tree: after [insertOrAssign(c)] a
    search for the number of [c] returns [c], and a search for any other
    number returns what it returned before; a course [find] returns has
    the number searched for. *)
Theorem find_after_insertOrAssign (t : CourseBST) (c : Course) (k : string) :
  BST.find (BST.insertOrAssign t c) k
  = (if decide (k = number c) then Some c else BST.find t k) /\
  (forall d, BST.find t k = Some d -> number d = k).
Proof.
  split.
  - unfold BST.find, BST.insertOrAssign.
    pose proof (find_insert (root_ t) c (count_ t) k) as H.
    now destruct (BST.insertOrAssignImpl (root_ t) c (count_ t)).
  - intros d. apply find_number.
Qed.

(** X7. [size()] after [insertOrAssign(c)]: unchanged when the number of
    [c] is found in the tree, one more (as a [size_t]) when it is not. *)
Theorem size_after_insertOrAssign (t : CourseBST) (c : Course) :
  BST.size (BST.insertOrAssign t c)
  = match BST.find t (number c) with
    | Some _ => BST.size t
    | None => size_t_inc (BST.size t)
    end.
Proof.
  unfold BST.size, BST.find, BST.insertOrAssign.
  pose proof (insert_count (root_ t) c (count_ t)) as H.
  now destruct (BST.insertOrAssignImpl (root_ t) c (count_ t)).
Qed.

Section Shape.

Lemma insert_skeleton (n : NodePtr) (c : Course) (k : Z) :
  is_Some (BST.find_from n (number c)) ->
  skeleton (BST.insertOrAssignImpl n c k).1 = skeleton n.
Proof.
  induction n as [|nc l IHl r IHr]; simpl.
  - intros [x H]. discriminate.
  - destruct (String.eqb_spec (number c) (number nc)) as [Heq|Hne].
    + intros _. rewrite Heq, ltb_irrefl. reflexivity.
    + destruct (String.ltb (number c) (number nc)) eqn:E1.
      * intros H. specialize (IHl H).
        destruct (BST.insertOrAssignImpl l c k). simpl in *. now rewrite IHl.
      * destruct (String.ltb (number nc) (number c)) eqn:E2.
        -- intros H. specialize (IHr H).
           destruct (BST.insertOrAssignImpl r c k). simpl in *.
           now rewrite IHr.
        -- now pose proof (ltb_total _ _ E1 E2).
Qed.

Lemma insert_new_length (n : NodePtr) (c : Course) (k : Z) :
  BST.find_from n (number c) = None ->
  length (elems (BST.insertOrAssignImpl n c k).1) = S (length (elems n)).
Proof.
  induction n as [|nc l IHl r IHr]; simpl; [reflexivity|].
  destruct (String.eqb_spec (number c) (number nc)) as [Heq|Hne];
    [discriminate|].
  destruct (String.ltb (number c) (number nc)) eqn:E1.
  - intros H. specialize (IHl H).
    destruct (BST.insertOrAssignImpl l c k). simpl in *.
    rewrite !length_app, IHl. simpl. lia.
  - destruct (String.ltb (number nc) (number c)) eqn:E2.
    + intros H. specialize (IHr H).
      destruct (BST.insertOrAssignImpl r c k). simpl in *.
      rewrite !length_app. simpl. rewrite IHr. lia.
    + now pose proof (ltb_total _ _ E1 E2).
Qed.

Lemma insert_twice (n : NodePtr) (c : Course) (k : Z) :
  BST.insertOrAssignImpl (BST.insertOrAssignImpl n c k).1 c
    (BST.insertOrAssignImpl n c k).2
  = BST.insertOrAssignImpl n c k.
Proof.
  induction n as [|nc l IHl r IHr]; simpl.
  - rewrite ltb_irrefl. now destruct c.
  - destruct (String.ltb (number c) (number nc)) eqn:E1.
    + destruct (BST.insertOrAssignImpl l c k) as [l' k']. simpl in *.
      now rewrite E1, IHl.
    + destruct (String.ltb (number nc) (number c)) eqn:E2.
      * destruct (BST.insertOrAssignImpl r c k) as [r' k']. simpl in *.
        now rewrite E1, E2, IHr.
      * simpl. now rewrite E1, E2.
Qed.

End Shape.

(** X8. Replacing keeps the shape: when the number of [c] is found in the
    tree, [insertOrAssign(c)] leaves every node where it was, with the
    number it had; when it is not found the tree has one node more. *)
Theorem insertOrAssign_shape (t : CourseBST) (c : Course) :
  (is_Some (BST.find t (number c)) ->
   skeleton (root_ (BST.insertOrAssign t c)) = skeleton (root_ t)) /\
  (BST.find t (number c) = None ->
   length (BST.visited (BST.insertOrAssign t c))
   = S (length (BST.visited t))).
Proof.
  rewrite !visited_elems. unfold BST.find, BST.insertOrAssign.
  pose proof (insert_skeleton (root_ t) c (count_ t)) as H1.
  pose proof (insert_new_length (root_ t) c (count_ t)) as H2.
  destruct (BST.insertOrAssignImpl (root_ t) c (count_ t)). simpl in *.
  split; assumption.
Qed.

(** X9. [insertOrAssign] keeps a search tree a search tree: the traversal
    stays strictly ascending, and it visits [c] and the courses visited
    before whose number is not that of [c]. *)
Theorem insertOrAssign_keeps_order (t : CourseBST) (c : Course) :
  ordered (root_ t) ->
  ordered (root_ (BST.insertOrAssign t c)) /\
  StronglySorted key_lt (BST.visited (BST.insertOrAssign t c)) /\
  (forall d, d ∈ BST.visited (BST.insertOrAssign t c) <->
             d = c \/ (d ∈ BST.visited t /\ number d <> number c)).
Proof.
  intros Ho.
  assert (ordered (root_ (BST.insertOrAssign t c))) as Ho'.
  { unfold BST.insertOrAssign.
    pose proof (insert_ordered (root_ t) c (count_ t) Ho) as H.
    now destruct (BST.insertOrAssignImpl (root_ t) c (count_ t)). }
  split; [exact Ho'|]. split.
  - rewrite visited_elems. now apply ordered_sorted.
  - intros d. rewrite !visited_elems, (find_elems _ _ Ho'), (find_elems _ _ Ho).
    assert (BST.find_from (root_ (BST.insertOrAssign t c)) (number d)
            = if decide (number d = number c) then Some c
              else BST.find_from (root_ t) (number d)) as ->.
    { unfold BST.insertOrAssign.
      pose proof (find_insert (root_ t) c (count_ t) (number d)) as H.
      now destruct (BST.insertOrAssignImpl (root_ t) c (count_ t)). }
    case_decide as E.
    + split; [intros [= ->]; now left|].
      intros [->|[_ H]]; [reflexivity|contradiction].
    + split; [intros H; now right|].
      intros [->|[H _]]; [contradiction|exact H].
Qed.

Lemma insertOrAssign_keeps_order_witness :
  StronglySorted key_lt
    (BST.visited (BST.insertOrAssign (tree_ (planner ex1))
                    (mkCourse "CSCI150" "Programming" []))).
Proof.
  refine (proj1 (proj2 (insertOrAssign_keeps_order (tree_ (planner ex1))
                          (mkCourse "CSCI150" "Programming" []) _))).
  vm_compute. repeat constructor.
Defined.

(** X10. Inserting the same course twice is inserting it once: the tree
    and [size()] are the same after the second call as after the first. *)
Theorem insertOrAssign_idempotent (t : CourseBST) (c : Course) :
  BST.insertOrAssign (BST.insertOrAssign t c) c = BST.insertOrAssign t c.
Proof.
  unfold BST.insertOrAssign.
  pose proof (insert_twice (root_ t) c (count_ t)) as H.
  destruct (BST.insertOrAssignImpl (root_ t) c (count_ t)) as [r k].
  simpl in *. now rewrite H.
Qed.

Section Degenerate.

Lemma sorted_app_lt (l1 l2 : list Course) (c : Course) :
  StronglySorted key_lt (l1 ++ l2) -> c ∈ l2 ->
  Forall (fun d => key_lt d c) l1.
Proof.
  induction l1 as [|d l1 IH]; simpl; intros Hs Hc; [constructor|].
  inversion Hs as [|? ? Hs' Hd]; subst. constructor; [|now apply IH].
  rewrite Forall_forall in Hd. apply Hd, elem_of_app. now right.
Qed.

Lemma insert_spine (l : list Course) (c : Course) (k : Z) :
  Forall (fun d => key_lt d c) l ->
  BST.insertOrAssignImpl (right_spine l) c k
  = (right_spine (l ++ [c]), size_t_inc k).
Proof.
  induction 1 as [|d l Hd _ IH]; simpl; [reflexivity|].
  unfold key_lt in Hd. now rewrite (ltb_asym _ _ Hd), Hd, IH.
Qed.

Lemma fold_spine (cs2 cs1 : list Course) (k : Z) :
  StronglySorted key_lt (cs1 ++ cs2) ->
  root_ (fold_left BST.insertOrAssign cs2
           {| root_ := right_spine cs1; count_ := k |})
  = right_spine (cs1 ++ cs2).
Proof.
  revert cs1 k. induction cs2 as [|c cs2 IH]; intros cs1 k Hs; simpl.
  - now rewrite app_nil_r.
  - unfold BST.insertOrAssign at 2. simpl. rewrite insert_spine.
    + rewrite IH; rewrite <- app_assoc; [reflexivity|exact Hs].
    + apply (sorted_app_lt _ _ _ Hs). constructor.
Qed.

Lemma height_spine (cs : list Course) : height (right_spine cs) = length cs.
Proof. induction cs as [|c cs IH]; simpl; [reflexivity|now rewrite IH]. Qed.

Lemma find_steps_spine (l1 l2 : list Course) (c : Course) :
  Forall (fun d => key_lt d c) l1 ->
  find_steps (right_spine (l1 ++ c :: l2)) (number c) = S (length l1).
Proof.
  induction 1 as [|d l1 Hd _ IH]; simpl.
  - now rewrite String.eqb_refl.
  - unfold key_lt in Hd. pose proof (ltb_neq _ _ Hd) as Hne.
    destruct (String.eqb_spec (number c) (number d)) as [E|_];
      [congruence|].
    now rewrite (ltb_asym _ _ Hd), IH.
Qed.

Lemma last_decompose {A} (l : list A) (x : A) :
  last l = Some x -> exists l', l = l' ++ [x].
Proof.
  intros H. destruct l as [|a l] using rev_ind; [discriminate|].
  rewrite last_snoc in H. injection H as ->. eauto.
Qed.

End Degenerate.

(** X11. The tree does not rebalance: inserting courses in strictly
    ascending order of their numbers into an empty tree gives the tree in
    which every node has a right child only; its height is the number of
    courses, and [find] of the last number compares with every node. *)
Theorem ascending_inserts_degenerate (cs : list Course) :
  StronglySorted key_lt cs ->
  root_ (fold_left BST.insertOrAssign cs BST.empty) = right_spine cs /\
  height (root_ (fold_left BST.insertOrAssign cs BST.empty)) = length cs /\
  (forall c, last cs = Some c ->
     find_steps (root_ (fold_left BST.insertOrAssign cs BST.empty))
       (number c) = length cs).
Proof.
  intros Hs.
  assert (root_ (fold_left BST.insertOrAssign cs BST.empty) = right_spine cs)
    as Hroot by (apply (fold_spine cs [] 0); exact Hs).
  rewrite Hroot. split; [reflexivity|]. split; [apply height_spine|].
  intros c Hc. apply last_decompose in Hc as [l ->].
  rewrite find_steps_spine, length_app; [simpl; lia|].
  apply (sorted_app_lt _ _ _ Hs). constructor.
Qed.

Lemma ascending_inserts_degenerate_witness :
  height (root_ (tree_ (planner ex1))) = 3%nat.
Proof.
  refine (proj1 (proj2 (ascending_inserts_degenerate
                          (BST.visited (tree_ (planner ex1))) _))).
  vm_compute. repeat constructor.
Defined.

(** X12. A traversal calls its visitor once for each node of the tree,
    from left to right (left subtree, node, right subtree), threading what
    the visitor captures: the result is the left fold of the visitor over
    [elems], the list of the nodes read off the tree. In a search tree
    these are the courses [find] returns, each number once. *)
Theorem inOrder_folds_visitor {S : Type} (t : CourseBST)
    (fn : Course -> S -> S) (s : S) :
  BST.inOrder t fn s
  = fold_left (fun acc c => fn c acc) (elems (root_ t)) s /\
  BST.visited t = elems (root_ t) /\
  (ordered (root_ t) ->
   NoDup (number <$> elems (root_ t)) /\
   forall c, c ∈ elems (root_ t) <-> BST.find t (number c) = Some c).
Proof.
  split; [apply inOrderImpl_elems|]. split; [apply visited_elems|].
  intros Ho. split.
  - apply sorted_NoDup, ordered_sorted, Ho.
  - intros c. now apply find_elems.
Qed.

(** ** The load, as a whole *)

Section Report.

Lemma isShortRow_true (line : string) : isShortRow line = true <-> shortRow line.
Proof.
  unfold isShortRow, shortRow.
  rewrite andb_true_iff, negb_true_iff, Nat.ltb_lt.
  destruct (trimCopy line); simpl; intuition congruence.
Qed.

Lemma isShortRow_blank (line : string) : blankRow line -> isShortRow line = false.
Proof. unfold blankRow, isShortRow. now intros ->. Qed.

Lemma isShortRow_valid (line : string) (c : Course) :
  rowCourse line = Some c -> isShortRow line = false.
Proof.
  intros Hc. destruct (isShortRow line) eqn:E; [|reflexivity].
  apply isShortRow_true, rowCourse_short in E. congruence.
Qed.

(** The loop writes one warning for each short row and counts it. *)
Lemma loadLoop_report (lines : list string) (st : LoadState) (n k : nat) :
  lineNum st = Z.of_nat n mod 2 ^ 64 ->
  skipped st = Z.of_nat k mod 2 ^ 64 ->
  ls_cerr (Planner.loadLoop lines st) = ls_cerr st ++ warnings n lines /\
  skipped (Planner.loadLoop lines st)
  = Z.of_nat (k + length (List.filter isShortRow lines)) mod 2 ^ 64.
Proof.
  revert st n k. induction lines as [|line lines IH]; intros st n k Hn Hk.
  - simpl. now rewrite app_nil_r, Nat.add_0_r.
  - change (Planner.loadLoop (line :: lines) st)
      with (Planner.loadLoop lines (Planner.loadLine st line)).
    cbn [warnings List.filter].
    destruct (row_cases line) as [Hb|[Hs|[c Hc]]].
    + rewrite (isShortRow_blank _ Hb).
      destruct (IH (Planner.loadLine st line) (S n) k) as [-> ->].
      * rewrite (loadLine_blank _ _ Hb). simpl.
        now rewrite Hn, size_t_inc_of_nat.
      * now rewrite (loadLine_blank _ _ Hb).
      * now rewrite (loadLine_blank _ _ Hb).
    + rewrite (proj2 (isShortRow_true _) Hs).
      destruct (IH (Planner.loadLine st line) (S n) (S k)) as [-> ->].
      * rewrite (loadLine_short _ _ Hs). simpl.
        now rewrite Hn, size_t_inc_of_nat.
      * rewrite (loadLine_short _ _ Hs). simpl.
        now rewrite Hk, size_t_inc_of_nat.
      * rewrite (loadLine_short _ _ Hs). simpl.
        rewrite Hn, size_t_inc_of_nat, <- app_assoc.
        split; [reflexivity|]. f_equal. lia.
    + rewrite (isShortRow_valid _ _ Hc).
      destruct (IH (Planner.loadLine st line) (S n) k) as [-> ->].
      * rewrite (loadLine_valid _ _ _ Hc). simpl.
        now rewrite Hn, size_t_inc_of_nat.
      * now rewrite (loadLine_valid _ _ _ Hc).
      * now rewrite (loadLine_valid _ _ _ Hc).
Qed.

End Report.

(** X13. A load replaces what was loaded before and never merges: what it
    returns, writes and leaves in the store and the index is the same from
    any two planners, and after a successful load the whole planner is. *)
Theorem load_replaces_prior_state (lines : list string)
    (filename err err' : string) (p p' : CoursePlanner) :
  ret (Planner.loadFromFile (Some lines) filename err p)
  = ret (Planner.loadFromFile (Some lines) filename err' p') /\
  tree_ (planner (Planner.loadFromFile (Some lines) filename err p))
  = tree_ (planner (Planner.loadFromFile (Some lines) filename err' p')) /\
  index_ (planner (Planner.loadFromFile (Some lines) filename err p))
  = index_ (planner (Planner.loadFromFile (Some lines) filename err' p')) /\
  load_cout (Planner.loadFromFile (Some lines) filename err p)
  = load_cout (Planner.loadFromFile (Some lines) filename err' p') /\
  load_cerr (Planner.loadFromFile (Some lines) filename err p)
  = load_cerr (Planner.loadFromFile (Some lines) filename err' p') /\
  (ret (Planner.loadFromFile (Some lines) filename err p) = true ->
   planner (Planner.loadFromFile (Some lines) filename err p)
   = planner (Planner.loadFromFile (Some lines) filename err' p')).
Proof.
  unfold Planner.loadFromFile.
  change (Planner.loadStart p') with (Planner.loadStart p).
  destruct (loaded (Planner.loadLoop lines (Planner.loadStart p)) =? 0);
    simpl; repeat (split; [reflexivity|]); [discriminate|reflexivity].
Qed.

(** X14. The report of a load. [std::cerr] gets one warning for each row
    that is not blank and has fewer than two parts, with the number of its
    line, in the order of the file, and nothing else. A successful load
    writes the number of course rows (rows, not distinct courses) and, when
    it is not zero, the number of such short rows; blank rows are in
    neither count. A load that fails writes nothing to [std::cout]. *)
Theorem load_report_counts_rows (lines : list string) (filename err : string)
    (p : CoursePlanner) :
  load_cerr (Planner.loadFromFile (Some lines) filename err p)
  = warnings 0 lines /\
  (ret (Planner.loadFromFile (Some lines) filename err p) = true ->
   load_cout (Planner.loadFromFile (Some lines) filename err p)
   = [OutStr "Loaded ";
      OutNum (Z.of_nat (length (courses lines)) mod 2 ^ 64);
      OutStr " course(s)"]
     ++ (if Z.of_nat (length (List.filter isShortRow lines)) mod 2 ^ 64 =? 0
         then []
         else [OutStr " (";
               OutNum (Z.of_nat (length (List.filter isShortRow lines))
                       mod 2 ^ 64);
               OutStr " line(s) skipped for format issues)"])
     ++ [OutStr ("." +:+ LF)]) /\
  (ret (Planner.loadFromFile (Some lines) filename err p) = false ->
   load_cout (Planner.loadFromFile (Some lines) filename err p) = []).
Proof.
  destruct (loadLoop_report lines (Planner.loadStart p) 0 0 eq_refl eq_refl)
    as [Hcerr Hskip].
  destruct (LoopInv_loop lines p) as (_ & _ & Hl & _).
  rewrite load_cerr_loop, Hcerr. split; [reflexivity|].
  unfold Planner.loadFromFile.
  destruct (loaded (Planner.loadLoop lines (Planner.loadStart p)) =? 0);
    simpl; split; try discriminate; try reflexivity.
  intros _. now rewrite Hl, Hskip.
Qed.

Section Rows.

Lemma prereqLoop_filter (rest acc : list string) :
  Planner.prereqLoop rest acc
  = acc ++ List.filter (fun q => negb (Str.empty q))
             (toUpperInPlace <$> rest).
Proof.
  revert acc. induction rest as [|part rest IH]; intros acc; simpl.
  - now rewrite app_nil_r.
  - rewrite IH. destruct (Str.empty (toUpperInPlace part)); simpl;
      [reflexivity|now rewrite <- app_assoc].
Qed.

Lemma rowCourse_parts (line : string) (c : Course) :
  rowCourse line = Some c ->
  exists p0 p1 rest,
    splitCSV (trimCopy line) = p0 :: p1 :: rest /\
    number c = toUpperInPlace p0 /\ title c = p1 /\
    prereqs c = List.filter (fun q => negb (Str.empty q))
                  (toUpperInPlace <$> rest).
Proof.
  unfold rowCourse. destruct (Str.empty (trimCopy line)); [discriminate|].
  destruct (splitCSV (trimCopy line)) as [|p0 [|p1 rest]]; simpl;
    try discriminate.
  intros [= <-]. exists p0, p1, rest. simpl.
  rewrite drop_0, prereqLoop_filter. auto.
Qed.

Lemma upper_no_lower (s : string) : any_lower (toUpperInPlace s) = false.
Proof.
  unfold toUpperInPlace. induction s as [|ch s IH]; simpl; [reflexivity|].
  now rewrite toupper_not_lower, IH.
Qed.

Lemma toupper_comma (ch : ascii) :
  Ascii.eqb (Str.toupper ch) comma = Ascii.eqb ch comma.
Proof. destruct ch as [[] [] [] [] [] [] [] []]; reflexivity. Qed.

Lemma upper_has_comma (s : string) :
  has_comma (toUpperInPlace s) = has_comma s.
Proof.
  unfold toUpperInPlace. induction s as [|ch s IH]; simpl; [reflexivity|].
  now rewrite toupper_comma, IH.
Qed.

Lemma upper_trimmed (s : string) :
  trimCopy s = s -> normalize (toUpperInPlace s) = toUpperInPlace s.
Proof.
  intros H. unfold normalize. now rewrite trimCopy_upper, H, upper_upper.
Qed.

Lemma courseMap_elem (cs : list Course) (k : string) (c : Course) :
  courseMap cs !! k = Some c -> c ∈ cs.
Proof.
  induction cs as [|d cs IH] using rev_ind.
  - unfold courseMap. simpl. now rewrite lookup_empty.
  - rewrite courseMap_snoc, lookup_insert. case_decide as E.
    + intros [= ->]. apply elem_of_app. right. constructor.
    + intros H. apply elem_of_app. left. now apply IH.
Qed.

End Rows.

(** X15. A row with at least two parts gives the course whose number is
    the first part in upper case, whose title is the second part as it
    stands, and whose prerequisites are the remaining parts in upper case,
    in order, without the empty ones. *)
Theorem rowCourse_fields (line : string) (c : Course) :
  rowCourse line = Some c ->
  exists p0 p1 rest,
    splitCSV (trimCopy line) = p0 :: p1 :: rest /\
    number c = toUpperInPlace p0 /\ title c = p1 /\
    prereqs c = List.filter (fun q => negb (Str.empty q))
                  (toUpperInPlace <$> rest) /\
    forall st, Planner.loadLine st line =
      {| ls_tree := BST.insertOrAssign (ls_tree st) c;
         ls_index := <[toUpperInPlace p0 := p1]> (ls_index st);
         lineNum := size_t_inc (lineNum st);
         loaded := size_t_inc (loaded st);
         skipped := skipped st; ls_cerr := ls_cerr st |}.
Proof.
  intros Hc. destruct (rowCourse_parts _ _ Hc) as (p0 & p1 & rest & H).
  destruct H as (Hs & Hn & Ht & Hp). exists p0, p1, rest.
  repeat (split; [assumption|]). intros st.
  rewrite (loadLine_valid _ _ _ Hc). now rewrite Hn, Ht.
Qed.

Lemma rowCourse_fields_witness :
  exists p0 p1 rest,
    splitCSV (trimCopy " math201, Discrete Mathematics ,math101,, csci100 ")
    = p0 :: p1 :: rest /\
    toUpperInPlace p0 = "MATH201" /\ p1 = "Discrete Mathematics" /\
    List.filter (fun q => negb (Str.empty q)) (toUpperInPlace <$> rest)
    = ["MATH101"; "CSCI100"].
Proof.
  destruct (rowCourse_fields
              " math201, Discrete Mathematics ,math101,, csci100 "
              (mkCourse "MATH201" "Discrete Mathematics"
                 ["MATH101"; "CSCI100"]) eq_refl)
    as (p0 & p1 & rest & Hs & Hn & Ht & Hp & _).
  exists p0, p1, rest. simpl in Hn, Ht, Hp. auto.
Defined.

(** X16. What a load stores is in normal form: for every course the
    traversal visits after a load, the number is trimmed and has no
    lower-case letter, the title is trimmed and has no comma, and every
    prerequisite is a non-empty trimmed number without lower-case letters. *)
Theorem stored_courses_normal (lines : list string) (filename err : string)
    (p : CoursePlanner) (c : Course) :
  c ∈ BST.visited
        (tree_ (planner (Planner.loadFromFile (Some lines) filename err p))) ->
  normalize (number c) = number c /\ any_lower (number c) = false /\
  has_comma (number c) = false /\
  trimCopy (title c) = title c /\ has_comma (title c) = false /\
  Forall (fun q => q <> EmptyString /\ normalize q = q /\
                   any_lower q = false /\ has_comma q = false) (prereqs c).
Proof.
  intros Hin. destruct (load_opened lines filename err p) as (Hr & _).
  apply (Rep_visited _ _ Hr) in Hin. apply courseMap_elem in Hin.
  apply courses_elem in Hin as (line & _ & Hc).
  destruct (rowCourse_parts _ _ Hc) as (p0 & p1 & rest & Hs & Hn & Ht & Hp).
  assert (forall part, part ∈ p0 :: p1 :: rest ->
            trimCopy part = part /\ has_comma part = false) as Hparts.
  { intros part Hpart. rewrite <- Hs in Hpart. unfold splitCSV in Hpart.
    split; [exact (splitCSV_loop_trimmed _ _ _ Hpart)|
            exact (splitCSV_loop_no_comma _ _ _ Hpart)]. }
  destruct (Hparts p0) as [T0 C0]; [constructor|].
  destruct (Hparts p1) as [T1 C1]; [constructor; constructor|].
  rewrite Hn, Ht, Hp.
  split; [now apply upper_trimmed|]. split; [apply upper_no_lower|].
  split; [now rewrite upper_has_comma|]. split; [exact T1|].
  split; [exact C1|].
  apply Forall_forall. intros q Hq. apply list_elem_of_In in Hq.
  apply filter_In in Hq as [Hq Hne]. apply list_elem_of_In in Hq.
  apply list_elem_of_fmap in Hq as (x & -> & Hx).
  destruct (Hparts x) as [Tx Cx]; [do 2 constructor; exact Hx|].
  split; [|split; [now apply upper_trimmed|split;
    [apply upper_no_lower|now rewrite upper_has_comma]]].
  intros E. rewrite E in Hne. discriminate.
Qed.

Lemma stored_courses_normal_witness :
  normalize "MATH201" = "MATH201" /\
  trimCopy "Discrete Mathematics" = "Discrete Mathematics".
Proof.
  destruct (stored_courses_normal ex1_lines "courses.csv" EmptyString
              Planner.init
              (mkCourse "MATH201" "Discrete Mathematics"
                 ["MATH101"; "CSCI100"])) as (H1 & _ & _ & H2 & _).
  - vm_compute. apply list_elem_of_In. simpl. auto.
  - split; [exact H1|exact H2].
Defined.

(** X17. After a successful load the total [printCourseList] prints is
    [size()] of the store, and it prints one line for each of that many
    courses when fewer than 2^64 rows were read. *)
Theorem listing_total_is_size (lines : list string) (filename err : string)
    (p : CoursePlanner) (r : LoadResult) :
  r = Planner.loadFromFile (Some lines) filename err p ->
  ret r = true ->
  Planner.printCourseList (planner r) =
  [OutStr (LF +:+ "ABCU Computer Science Course List (sorted)" +:+ LF);
   OutStr Planner.rule]
  ++ listingLines (BST.visited (tree_ (planner r)))
  ++ [OutStr Planner.rule; OutStr "Total: ";
      OutNum (BST.size (tree_ (planner r)));
      OutStr (" course(s)" +:+ LF +:+ LF)] /\
  (Z.of_nat (length lines) < 2 ^ 64 ->
   BST.size (tree_ (planner r))
   = Z.of_nat (length (BST.visited (tree_ (planner r))))).
Proof.
  intros -> Hret.
  destruct (load_opened lines filename err p) as (Hr & _ & _ & Hl).
  rewrite Hret in Hl. rewrite orb_true_l in Hl.
  pose proof (Rep_length _ _ Hr) as Hlen.
  destruct Hr as (_ & _ & Hc). unfold BST.size. split.
  - rewrite (printCourseList_loaded _ Hl), Hlen, Hc. reflexivity.
  - intros Hlines. rewrite Hc, Hlen. apply Z.mod_small.
    rewrite courseMap_size.
    pose proof (size_list_to_set_le (number <$> courses lines)) as H1.
    pose proof (courses_length lines) as H2.
    rewrite length_fmap in H1. lia.
Qed.

Lemma listing_total_is_size_witness :
  ret ex1 = true /\
  BST.size (tree_ (planner ex1))
  = Z.of_nat (length (BST.visited (tree_ (planner ex1)))).
Proof.
  split; [reflexivity|].
  refine (proj2 (listing_total_is_size ex1_lines "courses.csv" EmptyString
                   Planner.init ex1 eq_refl eq_refl) _).
  reflexivity.
Defined.

(** ** The menu loop *)

Section Menu.

Variable fs : string -> option (list string).

Lemma load_consistent (file : option (list string)) (name err : string)
    (p : CoursePlanner) :
  Consistent p -> Consistent (planner (Planner.loadFromFile file name err p)).
Proof.
  intros Hp. destruct file as [lines|]; [|exact Hp].
  destruct (load_opened lines name err p) as (Hr & Hi & _).
  exists (courseMap (courses lines)). auto.
Qed.

Lemma runLoads_consistent (calls : list (option (list string) * string))
    (p : CoursePlanner) :
  Consistent p -> Consistent (runLoads calls p).1.
Proof.
  revert p. induction calls as [|[file name] calls IH]; intros p Hp;
    [exact Hp|].
  simpl. specialize (IH _ (load_consistent file name EmptyString p Hp)).
  now destruct (runLoads calls _).
Qed.

Lemma init_consistent : Consistent Planner.init.
Proof.
  exists ∅. split; [apply (Rep_clear BST.empty)|].
  simpl. now rewrite fmap_empty.
Qed.

Lemma runLoads_cons (file : option (list string)) (name : string)
    (calls : list (option (list string) * string)) (p : CoursePlanner) :
  (runLoads ((file, name) :: calls) p).1
  = (runLoads calls (planner (Planner.loadFromFile file name EmptyString p))).1.
Proof. simpl. now destruct (runLoads calls _). Qed.


(** Without a choice of 1 nothing is loaded. *)
Lemma mainLoop_no_load (stdin : list string) :
  (forall line, line ∈ stdin -> trimCopy line <> "1") ->
  forall p out err,
    con_planner (mainLoop fs stdin p out err) = p /\
    con_err (mainLoop fs stdin p out err) = err.
Proof.
  assert (forall n stdin, (length stdin <= n)%nat ->
    (forall line, line ∈ stdin -> trimCopy line <> "1") ->
    forall p out err,
      con_planner (mainLoop fs stdin p out err) = p /\
      con_err (mainLoop fs stdin p out err) = err) as H.
  { clear stdin. induction n as [|n IH]; intros stdin Hlen Hno p out err.
    - destruct stdin; [|simpl in Hlen; lia]. now split.
    - destruct stdin as [|choiceLine rest]; [now split|].
      simpl in Hlen. cbn [mainLoop].
      assert (forall line, line ∈ rest -> trimCopy line <> "1") as Hrest
        by (intros line Hin; apply Hno; now apply list_elem_of_further).
      destruct (String.eqb_spec (trimCopy choiceLine) "1") as [E1|_].
      + exfalso. apply (Hno choiceLine); [constructor|exact E1].
      + destruct (String.eqb (trimCopy choiceLine) "2");
          [apply IH; [lia|exact Hrest]|].
        destruct (String.eqb (trimCopy choiceLine) "3").
        * destruct rest as [|num rest'].
          -- apply IH; [simpl; lia|exact Hrest].
          -- simpl in Hlen. apply IH; [lia|]. intros line Hin.
             apply Hrest. now apply list_elem_of_further.
        * destruct (String.eqb (trimCopy choiceLine) "9");
            [now split|apply IH; [lia|exact Hrest]]. }
  intros Hno p out err. now apply (H (length stdin)).
Qed.

(** The planner the loop ends with is the one the loads asked for by the
    input give, in order; the output written so far plays no part. *)
Lemma mainLoop_loadCalls (stdin : list string) :
  forall p out err,
    con_planner (mainLoop fs stdin p out err)
    = (runLoads (loadCalls fs stdin) p).1.
Proof.
  assert (forall n stdin, (length stdin <= n)%nat -> forall p out err,
            con_planner (mainLoop fs stdin p out err)
            = (runLoads (loadCalls fs stdin) p).1) as H.
  { clear stdin. induction n as [|n IH]; intros stdin Hlen p out err.
    - destruct stdin; [reflexivity|simpl in Hlen; lia].
    - destruct stdin as [|choiceLine rest]; [reflexivity|].
      simpl in Hlen. cbn [mainLoop loadCalls].
      destruct (String.eqb (trimCopy choiceLine) "1").
      + destruct rest as [|fnameLine rest']; [reflexivity|].
        simpl in Hlen.
        destruct (Str.empty (trimCopy fnameLine)); [apply IH; lia|].
        rewrite runLoads_cons.
        destruct (ret (Planner.loadFromFile (fs (trimCopy fnameLine))
                         (trimCopy fnameLine) EmptyString p));
          apply IH; lia.
      + destruct (String.eqb (trimCopy choiceLine) "2"); [apply IH; lia|].
        destruct (String.eqb (trimCopy choiceLine) "3").
        * destruct rest as [|num rest']; [reflexivity|].
          simpl in Hlen. apply IH. lia.
        * destruct (String.eqb (trimCopy choiceLine) "9");
            [reflexivity|apply IH; lia]. }
  intros p out err. now apply (H (length stdin)).
Qed.



End Menu.

(** X18. Only a choice of 1 changes the catalogue. The planner [main]
    ends with is the planner that the loads asked for by the input give
    from a fresh planner, in order: one [loadFromFile] call for each
    non-empty trimmed file name typed after a choice of 1, and no other.
    From any planner, a list choice, an info choice with its course number
    and an invalid choice leave the planner to the rest of the run as it
    is. The store at the end is a search tree and the index holds the
    title of each stored course. *)
Theorem main_planner_from_loads (fs : string -> option (list string))
    (stdin : list string) :
  con_planner (main fs stdin)
  = (runLoads (loadCalls fs stdin) Planner.init).1 /\
  (forall choiceLine rest p out err out' err',
     trimCopy choiceLine = "2" ->
     con_planner (mainLoop fs (choiceLine :: rest) p out err)
     = con_planner (mainLoop fs rest p out' err')) /\
  (forall choiceLine num rest p out err out' err',
     trimCopy choiceLine = "3" ->
     con_planner (mainLoop fs (choiceLine :: num :: rest) p out err)
     = con_planner (mainLoop fs rest p out' err')) /\
  (forall choiceLine rest p out err out' err',
     trimCopy choiceLine <> "1" -> trimCopy choiceLine <> "2" ->
     trimCopy choiceLine <> "3" -> trimCopy choiceLine <> "9" ->
     con_planner (mainLoop fs (choiceLine :: rest) p out err)
     = con_planner (mainLoop fs rest p out' err')) /\
  (forall choiceLine fnameLine rest p out err out' err',
     trimCopy choiceLine = "1" -> trimCopy fnameLine <> EmptyString ->
     con_planner (mainLoop fs (choiceLine :: fnameLine :: rest) p out err)
     = con_planner
         (mainLoop fs rest
            (planner (Planner.loadFromFile (fs (trimCopy fnameLine))
                        (trimCopy fnameLine) EmptyString p)) out' err')) /\
  ordered (root_ (tree_ (con_planner (main fs stdin)))) /\
  forall k, index_ (con_planner (main fs stdin)) !! k
            = title <$> BST.find (tree_ (con_planner (main fs stdin))) k.
Proof.
  assert (con_planner (main fs stdin)
          = (runLoads (loadCalls fs stdin) Planner.init).1) as Heq
    by apply mainLoop_loadCalls.
  split; [exact Heq|]. split; [|split; [|split; [|split]]].
  - intros c rest p out err out' err' E. rewrite !mainLoop_loadCalls.
    cbn [loadCalls]. now rewrite E.
  - intros c num rest p out err out' err' E. rewrite !mainLoop_loadCalls.
    cbn [loadCalls]. now rewrite E.
  - intros c rest p out err out' err' E1 E2 E3 E9.
    rewrite !mainLoop_loadCalls. cbn [loadCalls].
    apply String.eqb_neq in E1, E2, E3, E9. now rewrite E1, E2, E3, E9.
  - intros c f rest p out err out' err' E Hf. rewrite !mainLoop_loadCalls.
    cbn [loadCalls]. rewrite E.
    change (String.eqb "1" "1") with true. cbn iota.
    destruct (trimCopy f) eqn:Ef; [contradiction|]. cbn [Str.empty].
    now rewrite runLoads_cons.
  - rewrite Heq.
    destruct (runLoads_consistent (loadCalls fs stdin) _ init_consistent)
      as (m & (Ho & Hf & _) & Hi).
    split; [exact Ho|]. intros k. now rewrite Hi, lookup_fmap, Hf.
Qed.


(** X20. When no input line is 1 up to white space, [main] never loads:
    the planner stays as constructed, not loaded and empty, and nothing
    is written to [std::cerr]. *)
Theorem main_without_load_choice (fs : string -> option (list string))
    (stdin : list string) :
  (forall line, line ∈ stdin -> trimCopy line <> "1") ->
  con_planner (main fs stdin) = Planner.init /\
  con_err (main fs stdin) = [] /\
  Planner.isLoaded (con_planner (main fs stdin)) = false.
Proof.
  intros Hno.
  destruct (mainLoop_no_load fs stdin Hno Planner.init [] []) as [Hp He].
  unfold main. rewrite Hp, He. auto.
Qed.

Lemma main_without_load_choice_witness :
  con_planner (main (fun _ => Some ex1_lines) ["2"; " 3 "; "CSCI100"; "x"; "9"])
  = Planner.init.
Proof.
  refine (proj1 (main_without_load_choice (fun _ => Some ex1_lines)
                   ["2"; " 3 "; "CSCI100"; "x"; "9"] _)).
  intros line Hin. apply list_elem_of_In in Hin. simpl in Hin.
  destruct Hin as [<-|[<-|[<-|[<-|[<-|[]]]]]]; vm_compute; discriminate.
Defined.


